(** * research_interface: the command vocabulary of the robot service

    A shallow embedding of the service types header (namespace
    [research_interface]) and of [research_interface/robot/errors.h].

    The header declares data only: the [Function] enumeration, the
    [RequestBase]/[ResponseBase]/[CommandBase] templates and one struct
    per command.  Enumerations become inductive types whose encoded value
    is the position of the enumerator in its declaration (no enumerator
    of the header has an initializer), structs become records, C++
    constructors become functions, and C++ scopes become modules. *)

From Stdlib Require Import ZArith List Bool String Lia FinFun.
From coqutil Require Import Byte Word.LittleEndianList.
Import ListNotations.
Local Open Scope Z_scope.

(* ================================================================== *)
(** ** Scalars *)

(** [using Version = uint16_t;] *)
Definition Version : Type := Z.

Definition kVersion : Version := 1.
Definition kCommandPort : Z := 1337.

Definition is_uint16 (z : Z) : bool := (0 <=? z) && (z <? 2 ^ 16).
Definition is_uint32 (z : Z) : bool := (0 <=? z) && (z <? 2 ^ 32).

(** A [double] is held as its IEEE-754 binary64 bit pattern; the header
    stores and copies doubles and never computes with them. *)
Definition double : Type := Z.
Definition is_double (z : Z) : bool := (0 <=? z) && (z <? 2 ^ 64).

(** [std::array<T, N>]: the elements in index order.  The length [N] is
    part of the C++ type; here it is the predicate [is_array]. *)
Definition array (T : Type) (N : nat) : Type := list T.

Definition is_array {T : Type} (elem : T -> bool) (N : nat) (a : list T) : bool :=
  (List.length a =? N)%nat && forallb elem a.

(* ================================================================== *)
(** ** Enumerations *)

Section Enumerators.
Context {A : Type} (eqb : A -> A -> bool).

(** The value of an enumerator without initializer: the first one of a
    declaration is [next = 0], every other one is its predecessor's
    value plus one. *)
Fixpoint enumerator_value (next : Z) (decl : list A) (x : A) : Z :=
  match decl with
  | [] => next
  | e :: rest => if eqb e x then next else enumerator_value (next + 1) rest x
  end.

(** The enumerator that has a given value, if any. *)
Fixpoint enumerator_of_value (next : Z) (decl : list A) (v : Z) : option A :=
  match decl with
  | [] => None
  | e :: rest => if v =? next then Some e else enumerator_of_value (next + 1) rest v
  end.
End Enumerators.

(** [enum class Function : uint32_t] *)
Inductive Function : Type :=
| kConnect
| kStartMotionGenerator
| kStopMotionGenerator
| kStartController
| kStopController
| kGetCartesianLimit
| kSetControllerMode
| kSetCollisionBehavior
| kSetJointImpedance
| kSetCartesianImpedance
| kSetGuidingMode
| kSetEEToK
| kSetFToEE
| kSetLoad
| kSetTimeScalingFactor
| kAutomaticErrorRecovery
| kResetExternalTorqueAndForceMax.

Scheme Equality for Function.

Definition Function_decl : list Function :=
  [ kConnect; kStartMotionGenerator; kStopMotionGenerator; kStartController;
    kStopController; kGetCartesianLimit; kSetControllerMode;
    kSetCollisionBehavior; kSetJointImpedance; kSetCartesianImpedance;
    kSetGuidingMode; kSetEEToK; kSetFToEE; kSetLoad; kSetTimeScalingFactor;
    kAutomaticErrorRecovery; kResetExternalTorqueAndForceMax ].

Definition Function_to_uint32 (f : Function) : Z :=
  enumerator_value Function_beq 0 Function_decl f.

(** The structs that derive from [CommandBase], as tags. *)
Module Cmd.
Inductive t : Type :=
| Connect
| StartMotionGenerator
| StopMotionGenerator
| StartController
| StopController
| GetCartesianLimit
| SetControllerMode
| SetCollisionBehavior
| SetJointImpedance
| SetCartesianImpedance
| SetGuidingMode
| SetEEToK
| SetFToEE
| SetLoad
| SetTimeScalingFactor
| AutomaticErrorRecovery
| ResetExternalTorqueAndForceMax.

Scheme Equality for t.

Definition all : list t :=
  [ Connect; StartMotionGenerator; StopMotionGenerator; StartController;
    StopController; GetCartesianLimit; SetControllerMode;
    SetCollisionBehavior; SetJointImpedance; SetCartesianImpedance;
    SetGuidingMode; SetEEToK; SetFToEE; SetLoad; SetTimeScalingFactor;
    AutomaticErrorRecovery; ResetExternalTorqueAndForceMax ].
End Cmd.

(** [CommandBase<T, F>::kFunction]: the second template argument each
    struct passes to [CommandBase]. *)
Definition kFunction (T : Cmd.t) : Function :=
  match T with
  | Cmd.Connect => kConnect
  | Cmd.StartMotionGenerator => kStartMotionGenerator
  | Cmd.StopMotionGenerator => kStopMotionGenerator
  | Cmd.StartController => kStartController
  | Cmd.StopController => kStopController
  | Cmd.GetCartesianLimit => kGetCartesianLimit
  | Cmd.SetControllerMode => kSetControllerMode
  | Cmd.SetCollisionBehavior => kSetCollisionBehavior
  | Cmd.SetJointImpedance => kSetJointImpedance
  | Cmd.SetCartesianImpedance => kSetCartesianImpedance
  | Cmd.SetGuidingMode => kSetGuidingMode
  | Cmd.SetEEToK => kSetEEToK
  | Cmd.SetFToEE => kSetFToEE
  | Cmd.SetLoad => kSetLoad
  | Cmd.SetTimeScalingFactor => kSetTimeScalingFactor
  | Cmd.AutomaticErrorRecovery => kAutomaticErrorRecovery
  | Cmd.ResetExternalTorqueAndForceMax => kResetExternalTorqueAndForceMax
  end.

(** What [ResponseBase] asks of a status type by its [static_assert]s: an
    enumeration over [uint32_t] that has an enumerator [kSuccess]. *)
Class StatusEnum (S : Type) : Type := {
  status_decl : list S;
  status_eqb : S -> S -> bool;
  status_name : S -> string;
  status_kSuccess : S
}.

Definition status_to_uint32 {S : Type} `{StatusEnum S} (s : S) : Z :=
  enumerator_value status_eqb 0 status_decl s.

Definition status_of_uint32 {S : Type} `{StatusEnum S} (v : Z) : option S :=
  enumerator_of_value 0 status_decl v.

(** [template <typename T> struct RequestBase] *)
Module RequestBase.
Record t : Type := Build { function : Function }.

(** [RequestBase() : function(T::kFunction) {}] *)
Definition make (T : Cmd.t) : t := {| function := kFunction T |}.
End RequestBase.

(** [template <typename T> struct ResponseBase].  The record is over the
    type of [status]; every use below takes [T::Status] for it. *)
Module ResponseBase.
Record t (S : Type) : Type := Build { function : Function; status : S }.
Arguments Build {S} _ _.
Arguments function {S} _.
Arguments status {S} _.

(** [ResponseBase(typename T::Status status)
       : function(T::kFunction), status(status) {}] *)
Definition make {S : Type} (T : Cmd.t) (status : S) : t S :=
  {| function := kFunction T; status := status |}.
End ResponseBase.

(** [template <typename T, Function F> struct CommandBase] *)
Module CommandBase.
(** [enum class Status : uint32_t { kSuccess };] *)
Inductive Status : Type := kSuccess.

Definition Status_eqb (a b : Status) : bool := true.

Definition Status_name (s : Status) : string :=
  match s with kSuccess => "kSuccess"%string end.

#[export] Instance Status_enum : StatusEnum Status := {|
  status_decl := [kSuccess];
  status_eqb := Status_eqb;
  status_name := Status_name;
  status_kSuccess := kSuccess
|}.
End CommandBase.

(* ================================================================== *)
(** ** The commands *)

Module Connect.
(** [enum class Status : uint32_t { kSuccess, kIncompatibleLibraryVersion };] *)
Inductive Status : Type := kSuccess | kIncompatibleLibraryVersion.

Definition Status_eqb (a b : Status) : bool :=
  match a, b with
  | kSuccess, kSuccess => true
  | kIncompatibleLibraryVersion, kIncompatibleLibraryVersion => true
  | _, _ => false
  end.

Definition Status_name (s : Status) : string :=
  match s with
  | kSuccess => "kSuccess"%string
  | kIncompatibleLibraryVersion => "kIncompatibleLibraryVersion"%string
  end.

#[export] Instance Status_enum : StatusEnum Status := {|
  status_decl := [kSuccess; kIncompatibleLibraryVersion];
  status_eqb := Status_eqb;
  status_name := Status_name;
  status_kSuccess := kSuccess
|}.

(** [struct Request : public RequestBase<Connect>] *)
Record Request : Type := Build_Request {
  Request_base : RequestBase.t;
  version : Version;
  udp_port : Z
}.

(** [Request(uint16_t udp_port) : version(kVersion), udp_port(udp_port) {}] *)
Definition make_Request (udp_port : Z) : Request :=
  {| Request_base := RequestBase.make Cmd.Connect;
     version := kVersion;
     udp_port := udp_port |}.

(** [struct Response : public ResponseBase<Connect>] *)
Record Response : Type := Build_Response {
  Response_base : ResponseBase.t Status;
  Response_version : Version
}.

(** [Response(Status status) : ResponseBase(status), version(kVersion) {}] *)
Definition make_Response (status : Status) : Response :=
  {| Response_base := ResponseBase.make Cmd.Connect status;
     Response_version := kVersion |}.
End Connect.

Module StartMotionGenerator.
(** [enum class MotionGeneratorMode : uint32_t] *)
Inductive MotionGeneratorMode : Type :=
| kJointPosition
| kJointVelocity
| kCartesianPosition
| kCartesianVelocity.

Definition MotionGeneratorMode_eqb (a b : MotionGeneratorMode) : bool :=
  match a, b with
  | kJointPosition, kJointPosition => true
  | kJointVelocity, kJointVelocity => true
  | kCartesianPosition, kCartesianPosition => true
  | kCartesianVelocity, kCartesianVelocity => true
  | _, _ => false
  end.

Definition MotionGeneratorMode_decl : list MotionGeneratorMode :=
  [kJointPosition; kJointVelocity; kCartesianPosition; kCartesianVelocity].

Definition MotionGeneratorMode_to_uint32 (m : MotionGeneratorMode) : Z :=
  enumerator_value MotionGeneratorMode_eqb 0 MotionGeneratorMode_decl m.

(** [enum class Status : uint32_t] *)
Inductive Status : Type :=
| kSuccess
| kInvalidType
| kFinished
| kAborted
| kRejected.

Definition Status_eqb (a b : Status) : bool :=
  match a, b with
  | kSuccess, kSuccess => true
  | kInvalidType, kInvalidType => true
  | kFinished, kFinished => true
  | kAborted, kAborted => true
  | kRejected, kRejected => true
  | _, _ => false
  end.

Definition Status_name (s : Status) : string :=
  match s with
  | kSuccess => "kSuccess"%string
  | kInvalidType => "kInvalidType"%string
  | kFinished => "kFinished"%string
  | kAborted => "kAborted"%string
  | kRejected => "kRejected"%string
  end.

#[export] Instance Status_enum : StatusEnum Status := {|
  status_decl := [kSuccess; kInvalidType; kFinished; kAborted; kRejected];
  status_eqb := Status_eqb;
  status_name := Status_name;
  status_kSuccess := kSuccess
|}.

(** [struct Request : public RequestBase<StartMotionGenerator>] *)
Record Request : Type := Build_Request {
  Request_base : RequestBase.t;
  mode : MotionGeneratorMode
}.

(** [Request(MotionGeneratorMode mode) : mode(mode) {}] *)
Definition make_Request (mode : MotionGeneratorMode) : Request :=
  {| Request_base := RequestBase.make Cmd.StartMotionGenerator; mode := mode |}.

(** [using Response = ResponseBase<T>;] inherited from [CommandBase]. *)
Definition Response : Type := ResponseBase.t Status.

Definition make_Response (status : Status) : Response :=
  ResponseBase.make Cmd.StartMotionGenerator status.
End StartMotionGenerator.

Module StopMotionGenerator.
(** [struct StopMotionGenerator : public CommandBase<StopMotionGenerator, Function::kStopMotionGenerator>] with an
    empty body: [Status], [Request] and [Response] are the inherited ones. *)
Definition Status : Type := CommandBase.Status.

Definition Request : Type := RequestBase.t.

Definition make_Request : Request := RequestBase.make Cmd.StopMotionGenerator.

Definition Response : Type := ResponseBase.t Status.

Definition make_Response (status : Status) : Response :=
  ResponseBase.make Cmd.StopMotionGenerator status.
End StopMotionGenerator.

Module StartController.
(** [struct StartController : public CommandBase<StartController, Function::kStartController>] with an
    empty body: [Status], [Request] and [Response] are the inherited ones. *)
Definition Status : Type := CommandBase.Status.

Definition Request : Type := RequestBase.t.

Definition make_Request : Request := RequestBase.make Cmd.StartController.

Definition Response : Type := ResponseBase.t Status.

Definition make_Response (status : Status) : Response :=
  ResponseBase.make Cmd.StartController status.
End StartController.

Module StopController.
(** [struct StopController : public CommandBase<StopController, Function::kStopController>] with an
    empty body: [Status], [Request] and [Response] are the inherited ones. *)
Definition Status : Type := CommandBase.Status.

Definition Request : Type := RequestBase.t.

Definition make_Request : Request := RequestBase.make Cmd.StopController.

Definition Response : Type := ResponseBase.t Status.

Definition make_Response (status : Status) : Response :=
  ResponseBase.make Cmd.StopController status.
End StopController.

Module GetCartesianLimit.
(** [enum class Status : uint32_t { kSuccess, kReceived };] *)
Inductive Status : Type := kSuccess | kReceived.

Definition Status_eqb (a b : Status) : bool :=
  match a, b with
  | kSuccess, kSuccess => true
  | kReceived, kReceived => true
  | _, _ => false
  end.

Definition Status_name (s : Status) : string :=
  match s with
  | kSuccess => "kSuccess"%string
  | kReceived => "kReceived"%string
  end.

#[export] Instance Status_enum : StatusEnum Status := {|
  status_decl := [kSuccess; kReceived];
  status_eqb := Status_eqb;
  status_name := Status_name;
  status_kSuccess := kSuccess
|}.

(** [using Request = RequestBase<T>;] inherited from [CommandBase]. *)
Definition Request : Type := RequestBase.t.

Definition make_Request : Request := RequestBase.make Cmd.GetCartesianLimit.

(** [struct Response : public ResponseBase<GetCartesianLimit>] *)
Record Response : Type := Build_Response {
  Response_base : ResponseBase.t Status;
  object_p_min : array double 3;
  object_p_max : array double 3;
  object_frame : array double 16;
  object_activation : bool
}.

(** [Response(Status status)]: every member after the base is
    value-initialized ([{}]), that is zeros and [false]. *)
Definition make_Response (status : Status) : Response :=
  {| Response_base := ResponseBase.make Cmd.GetCartesianLimit status;
     object_p_min := repeat 0 3;
     object_p_max := repeat 0 3;
     object_frame := repeat 0 16;
     object_activation := false |}.

(** [Response(Status status, object_p_min, object_p_max, object_frame,
             object_activation)] *)
Definition make_Response_with (status : Status)
    (object_p_min object_p_max : array double 3)
    (object_frame : array double 16) (object_activation : bool) : Response :=
  {| Response_base := ResponseBase.make Cmd.GetCartesianLimit status;
     object_p_min := object_p_min;
     object_p_max := object_p_max;
     object_frame := object_frame;
     object_activation := object_activation |}.
End GetCartesianLimit.

Module SetControllerMode.
(** [enum class ControllerMode : uint32_t] *)
Inductive ControllerMode : Type :=
| kMotorPD
| kJointPosition
| kJointImpedance
| kCartesianImpedance.

Definition ControllerMode_eqb (a b : ControllerMode) : bool :=
  match a, b with
  | kMotorPD, kMotorPD => true
  | kJointPosition, kJointPosition => true
  | kJointImpedance, kJointImpedance => true
  | kCartesianImpedance, kCartesianImpedance => true
  | _, _ => false
  end.

Definition ControllerMode_decl : list ControllerMode :=
  [kMotorPD; kJointPosition; kJointImpedance; kCartesianImpedance].

Definition ControllerMode_to_uint32 (m : ControllerMode) : Z :=
  enumerator_value ControllerMode_eqb 0 ControllerMode_decl m.

(** [struct Request : public RequestBase<SetControllerMode>] *)
Record Request : Type := Build_Request {
  Request_base : RequestBase.t;
  mode : ControllerMode
}.

(** [Request(ControllerMode mode) : mode(mode) {}] *)
Definition make_Request (mode : ControllerMode) : Request :=
  {| Request_base := RequestBase.make Cmd.SetControllerMode; mode := mode |}.

(** [Status] and [Response] are inherited from [CommandBase]. *)
Definition Status : Type := CommandBase.Status.

Definition Response : Type := ResponseBase.t Status.

Definition make_Response (status : Status) : Response :=
  ResponseBase.make Cmd.SetControllerMode status.
End SetControllerMode.

Module SetCollisionBehavior.
(** [struct Request : public RequestBase<SetCollisionBehavior>] *)
Record Request : Type := Build_Request {
  Request_base : RequestBase.t;
  torque_thresholds_acceleration : array double 14;
  torque_thresholds_nominal : array double 14;
  force_thresholds_acceleration : array double 12;
  force_thresholds_nominal : array double 12
}.

Definition make_Request
    (torque_thresholds_acceleration torque_thresholds_nominal : array double 14)
    (force_thresholds_acceleration force_thresholds_nominal : array double 12)
    : Request :=
  {| Request_base := RequestBase.make Cmd.SetCollisionBehavior;
     torque_thresholds_acceleration := torque_thresholds_acceleration;
     torque_thresholds_nominal := torque_thresholds_nominal;
     force_thresholds_acceleration := force_thresholds_acceleration;
     force_thresholds_nominal := force_thresholds_nominal |}.

(** [Status] and [Response] are inherited from [CommandBase]. *)
Definition Status : Type := CommandBase.Status.

Definition Response : Type := ResponseBase.t Status.

Definition make_Response (status : Status) : Response :=
  ResponseBase.make Cmd.SetCollisionBehavior status.
End SetCollisionBehavior.

Module SetJointImpedance.
(** [struct Request : public RequestBase<SetJointImpedance>] *)
Record Request : Type := Build_Request {
  Request_base : RequestBase.t;
  K_theta : array double 7
}.

(** [Request(const std::array<double, 7> K_theta) : K_theta(K_theta) {}] *)
Definition make_Request (K_theta : array double 7) : Request :=
  {| Request_base := RequestBase.make Cmd.SetJointImpedance; K_theta := K_theta |}.

(** [Status] and [Response] are inherited from [CommandBase]. *)
Definition Status : Type := CommandBase.Status.

Definition Response : Type := ResponseBase.t Status.

Definition make_Response (status : Status) : Response :=
  ResponseBase.make Cmd.SetJointImpedance status.
End SetJointImpedance.

Module SetCartesianImpedance.
(** [struct Request : public RequestBase<SetCartesianImpedance>] *)
Record Request : Type := Build_Request {
  Request_base : RequestBase.t;
  K_x : array double 6
}.

(** [Request(const std::array<double, 6> K_x) : K_x(K_x) {}] *)
Definition make_Request (K_x : array double 6) : Request :=
  {| Request_base := RequestBase.make Cmd.SetCartesianImpedance; K_x := K_x |}.

(** [Status] and [Response] are inherited from [CommandBase]. *)
Definition Status : Type := CommandBase.Status.

Definition Response : Type := ResponseBase.t Status.

Definition make_Response (status : Status) : Response :=
  ResponseBase.make Cmd.SetCartesianImpedance status.
End SetCartesianImpedance.

Module SetGuidingMode.
(** [struct Request : public RequestBase<SetGuidingMode>] *)
Record Request : Type := Build_Request {
  Request_base : RequestBase.t;
  guiding_mode : array bool 6;
  nullspace : bool
}.

(** [Request(const std::array<bool, 6>& guiding_mode, bool nullspace)] *)
Definition make_Request (guiding_mode : array bool 6) (nullspace : bool) : Request :=
  {| Request_base := RequestBase.make Cmd.SetGuidingMode;
     guiding_mode := guiding_mode;
     nullspace := nullspace |}.

(** [Status] and [Response] are inherited from [CommandBase]. *)
Definition Status : Type := CommandBase.Status.

Definition Response : Type := ResponseBase.t Status.

Definition make_Response (status : Status) : Response :=
  ResponseBase.make Cmd.SetGuidingMode status.
End SetGuidingMode.

Module SetEEToK.
(** [struct Request : public RequestBase<SetEEToK>] *)
Record Request : Type := Build_Request {
  Request_base : RequestBase.t;
  EE_T_K : array double 16
}.

(** [Request(const std::array<double, 16>& EE_T_K) : EE_T_K(EE_T_K) {}] *)
Definition make_Request (EE_T_K : array double 16) : Request :=
  {| Request_base := RequestBase.make Cmd.SetEEToK; EE_T_K := EE_T_K |}.

(** [Status] and [Response] are inherited from [CommandBase]. *)
Definition Status : Type := CommandBase.Status.

Definition Response : Type := ResponseBase.t Status.

Definition make_Response (status : Status) : Response :=
  ResponseBase.make Cmd.SetEEToK status.
End SetEEToK.

Module SetFToEE.
(** [struct Request : public RequestBase<SetFToEE>] *)
Record Request : Type := Build_Request {
  Request_base : RequestBase.t;
  F_T_EE : array double 16
}.

(** [Request(const std::array<double, 16>& F_T_EE) : F_T_EE(F_T_EE) {}] *)
Definition make_Request (F_T_EE : array double 16) : Request :=
  {| Request_base := RequestBase.make Cmd.SetFToEE; F_T_EE := F_T_EE |}.

(** [Status] and [Response] are inherited from [CommandBase]. *)
Definition Status : Type := CommandBase.Status.

Definition Response : Type := ResponseBase.t Status.

Definition make_Response (status : Status) : Response :=
  ResponseBase.make Cmd.SetFToEE status.
End SetFToEE.

Module SetLoad.
(** [struct Request : public RequestBase<SetLoad>] *)
Record Request : Type := Build_Request {
  Request_base : RequestBase.t;
  m_load : double;
  F_x_Cload : array double 3;
  I_load : array double 9
}.

(** [Request(double m_load, std::array<double, 3>& F_x_Cload,
            std::array<double, 9>& I_load)] *)
Definition make_Request (m_load : double) (F_x_Cload : array double 3)
    (I_load : array double 9) : Request :=
  {| Request_base := RequestBase.make Cmd.SetLoad;
     m_load := m_load;
     F_x_Cload := F_x_Cload;
     I_load := I_load |}.

(** [Status] and [Response] are inherited from [CommandBase]. *)
Definition Status : Type := CommandBase.Status.

Definition Response : Type := ResponseBase.t Status.

Definition make_Response (status : Status) : Response :=
  ResponseBase.make Cmd.SetLoad status.
End SetLoad.

Module SetTimeScalingFactor.
(** [struct Request : public RequestBase<SetLoad>]: the base class this
    struct names is [RequestBase<SetLoad>], and the constructor leaves the
    base to its default constructor. *)
Record Request : Type := Build_Request {
  Request_base : RequestBase.t;
  time_scaling_factor : double
}.

(** [Request(double time_scaling_factor)
       : time_scaling_factor(time_scaling_factor) {}] *)
Definition make_Request (time_scaling_factor : double) : Request :=
  {| Request_base := RequestBase.make Cmd.SetLoad;
     time_scaling_factor := time_scaling_factor |}.

(** [Status] and [Response] are inherited from [CommandBase]. *)
Definition Status : Type := CommandBase.Status.

Definition Response : Type := ResponseBase.t Status.

Definition make_Response (status : Status) : Response :=
  ResponseBase.make Cmd.SetTimeScalingFactor status.
End SetTimeScalingFactor.

Module AutomaticErrorRecovery.
(** [struct AutomaticErrorRecovery : public CommandBase<AutomaticErrorRecovery, Function::kAutomaticErrorRecovery>] with an
    empty body: [Status], [Request] and [Response] are the inherited ones. *)
Definition Status : Type := CommandBase.Status.

Definition Request : Type := RequestBase.t.

Definition make_Request : Request := RequestBase.make Cmd.AutomaticErrorRecovery.

Definition Response : Type := ResponseBase.t Status.

Definition make_Response (status : Status) : Response :=
  ResponseBase.make Cmd.AutomaticErrorRecovery status.
End AutomaticErrorRecovery.

Module ResetExternalTorqueAndForceMax.
(** [struct ResetExternalTorqueAndForceMax : public CommandBase<ResetExternalTorqueAndForceMax, Function::kResetExternalTorqueAndForceMax>] with an
    empty body: [Status], [Request] and [Response] are the inherited ones. *)
Definition Status : Type := CommandBase.Status.

Definition Request : Type := RequestBase.t.

Definition make_Request : Request := RequestBase.make Cmd.ResetExternalTorqueAndForceMax.

Definition Response : Type := ResponseBase.t Status.

Definition make_Response (status : Status) : Response :=
  ResponseBase.make Cmd.ResetExternalTorqueAndForceMax status.
End ResetExternalTorqueAndForceMax.


(* ================================================================== *)
(** ** The commands as one family *)

(** [T::Status], the type [ResponseBase<T>] takes its status from. *)
Definition StatusOf (T : Cmd.t) : Type :=
  match T with
  | Cmd.Connect => Connect.Status
  | Cmd.StartMotionGenerator => StartMotionGenerator.Status
  | Cmd.StopMotionGenerator => StopMotionGenerator.Status
  | Cmd.StartController => StartController.Status
  | Cmd.StopController => StopController.Status
  | Cmd.GetCartesianLimit => GetCartesianLimit.Status
  | Cmd.SetControllerMode => SetControllerMode.Status
  | Cmd.SetCollisionBehavior => SetCollisionBehavior.Status
  | Cmd.SetJointImpedance => SetJointImpedance.Status
  | Cmd.SetCartesianImpedance => SetCartesianImpedance.Status
  | Cmd.SetGuidingMode => SetGuidingMode.Status
  | Cmd.SetEEToK => SetEEToK.Status
  | Cmd.SetFToEE => SetFToEE.Status
  | Cmd.SetLoad => SetLoad.Status
  | Cmd.SetTimeScalingFactor => SetTimeScalingFactor.Status
  | Cmd.AutomaticErrorRecovery => AutomaticErrorRecovery.Status
  | Cmd.ResetExternalTorqueAndForceMax => ResetExternalTorqueAndForceMax.Status
  end.

(** Whether the struct declares a [Status] of its own, which hides the one
    of [CommandBase]. *)
Definition declares_Status (T : Cmd.t) : bool :=
  match T with
  | Cmd.Connect | Cmd.StartMotionGenerator | Cmd.GetCartesianLimit => true
  | _ => false
  end.

Definition StatusOf_enum (T : Cmd.t) : StatusEnum (StatusOf T) :=
  match T with
  | Cmd.Connect => Connect.Status_enum
  | Cmd.StartMotionGenerator => StartMotionGenerator.Status_enum
  | Cmd.StopMotionGenerator => CommandBase.Status_enum
  | Cmd.StartController => CommandBase.Status_enum
  | Cmd.StopController => CommandBase.Status_enum
  | Cmd.GetCartesianLimit => GetCartesianLimit.Status_enum
  | Cmd.SetControllerMode => CommandBase.Status_enum
  | Cmd.SetCollisionBehavior => CommandBase.Status_enum
  | Cmd.SetJointImpedance => CommandBase.Status_enum
  | Cmd.SetCartesianImpedance => CommandBase.Status_enum
  | Cmd.SetGuidingMode => CommandBase.Status_enum
  | Cmd.SetEEToK => CommandBase.Status_enum
  | Cmd.SetFToEE => CommandBase.Status_enum
  | Cmd.SetLoad => CommandBase.Status_enum
  | Cmd.SetTimeScalingFactor => CommandBase.Status_enum
  | Cmd.AutomaticErrorRecovery => CommandBase.Status_enum
  | Cmd.ResetExternalTorqueAndForceMax => CommandBase.Status_enum
  end.

Definition Status_decl (T : Cmd.t) : list (StatusOf T) :=
  @status_decl _ (StatusOf_enum T).

Definition Status_to_uint32 (T : Cmd.t) (s : StatusOf T) : Z :=
  @status_to_uint32 _ (StatusOf_enum T) s.

Definition Status_of_uint32 (T : Cmd.t) (v : Z) : option (StatusOf T) :=
  @status_of_uint32 _ (StatusOf_enum T) v.

Definition Status_name (T : Cmd.t) (s : StatusOf T) : string :=
  @status_name _ (StatusOf_enum T) s.

Definition Status_kSuccess (T : Cmd.t) : StatusOf T :=
  @status_kSuccess _ (StatusOf_enum T).

(** A request of any command: [T::Request] for one of the seventeen [T]. *)
Inductive Request : Type :=
| Connect_Request (r : Connect.Request)
| StartMotionGenerator_Request (r : StartMotionGenerator.Request)
| StopMotionGenerator_Request (r : StopMotionGenerator.Request)
| StartController_Request (r : StartController.Request)
| StopController_Request (r : StopController.Request)
| GetCartesianLimit_Request (r : GetCartesianLimit.Request)
| SetControllerMode_Request (r : SetControllerMode.Request)
| SetCollisionBehavior_Request (r : SetCollisionBehavior.Request)
| SetJointImpedance_Request (r : SetJointImpedance.Request)
| SetCartesianImpedance_Request (r : SetCartesianImpedance.Request)
| SetGuidingMode_Request (r : SetGuidingMode.Request)
| SetEEToK_Request (r : SetEEToK.Request)
| SetFToEE_Request (r : SetFToEE.Request)
| SetLoad_Request (r : SetLoad.Request)
| SetTimeScalingFactor_Request (r : SetTimeScalingFactor.Request)
| AutomaticErrorRecovery_Request (r : AutomaticErrorRecovery.Request)
| ResetExternalTorqueAndForceMax_Request (r : ResetExternalTorqueAndForceMax.Request).

(** The struct whose [Request] a value is. *)
Definition Request_command (x : Request) : Cmd.t :=
  match x with
  | Connect_Request _ => Cmd.Connect
  | StartMotionGenerator_Request _ => Cmd.StartMotionGenerator
  | StopMotionGenerator_Request _ => Cmd.StopMotionGenerator
  | StartController_Request _ => Cmd.StartController
  | StopController_Request _ => Cmd.StopController
  | GetCartesianLimit_Request _ => Cmd.GetCartesianLimit
  | SetControllerMode_Request _ => Cmd.SetControllerMode
  | SetCollisionBehavior_Request _ => Cmd.SetCollisionBehavior
  | SetJointImpedance_Request _ => Cmd.SetJointImpedance
  | SetCartesianImpedance_Request _ => Cmd.SetCartesianImpedance
  | SetGuidingMode_Request _ => Cmd.SetGuidingMode
  | SetEEToK_Request _ => Cmd.SetEEToK
  | SetFToEE_Request _ => Cmd.SetFToEE
  | SetLoad_Request _ => Cmd.SetLoad
  | SetTimeScalingFactor_Request _ => Cmd.SetTimeScalingFactor
  | AutomaticErrorRecovery_Request _ => Cmd.AutomaticErrorRecovery
  | ResetExternalTorqueAndForceMax_Request _ => Cmd.ResetExternalTorqueAndForceMax
  end.

(** The [RequestBase] subobject of a request. *)
Definition Request_base (x : Request) : RequestBase.t :=
  match x with
  | Connect_Request r => Connect.Request_base r
  | StartMotionGenerator_Request r => StartMotionGenerator.Request_base r
  | StopMotionGenerator_Request r => r
  | StartController_Request r => r
  | StopController_Request r => r
  | GetCartesianLimit_Request r => r
  | SetControllerMode_Request r => SetControllerMode.Request_base r
  | SetCollisionBehavior_Request r => SetCollisionBehavior.Request_base r
  | SetJointImpedance_Request r => SetJointImpedance.Request_base r
  | SetCartesianImpedance_Request r => SetCartesianImpedance.Request_base r
  | SetGuidingMode_Request r => SetGuidingMode.Request_base r
  | SetEEToK_Request r => SetEEToK.Request_base r
  | SetFToEE_Request r => SetFToEE.Request_base r
  | SetLoad_Request r => SetLoad.Request_base r
  | SetTimeScalingFactor_Request r => SetTimeScalingFactor.Request_base r
  | AutomaticErrorRecovery_Request r => r
  | ResetExternalTorqueAndForceMax_Request r => r
  end.

Definition Request_function (x : Request) : Function :=
  RequestBase.function (Request_base x).

(** A response of any command: [T::Response] for one of the seventeen [T]. *)
Inductive Response : Type :=
| Connect_Response (r : Connect.Response)
| StartMotionGenerator_Response (r : StartMotionGenerator.Response)
| StopMotionGenerator_Response (r : StopMotionGenerator.Response)
| StartController_Response (r : StartController.Response)
| StopController_Response (r : StopController.Response)
| GetCartesianLimit_Response (r : GetCartesianLimit.Response)
| SetControllerMode_Response (r : SetControllerMode.Response)
| SetCollisionBehavior_Response (r : SetCollisionBehavior.Response)
| SetJointImpedance_Response (r : SetJointImpedance.Response)
| SetCartesianImpedance_Response (r : SetCartesianImpedance.Response)
| SetGuidingMode_Response (r : SetGuidingMode.Response)
| SetEEToK_Response (r : SetEEToK.Response)
| SetFToEE_Response (r : SetFToEE.Response)
| SetLoad_Response (r : SetLoad.Response)
| SetTimeScalingFactor_Response (r : SetTimeScalingFactor.Response)
| AutomaticErrorRecovery_Response (r : AutomaticErrorRecovery.Response)
| ResetExternalTorqueAndForceMax_Response (r : ResetExternalTorqueAndForceMax.Response).

Definition Response_command (y : Response) : Cmd.t :=
  match y with
  | Connect_Response _ => Cmd.Connect
  | StartMotionGenerator_Response _ => Cmd.StartMotionGenerator
  | StopMotionGenerator_Response _ => Cmd.StopMotionGenerator
  | StartController_Response _ => Cmd.StartController
  | StopController_Response _ => Cmd.StopController
  | GetCartesianLimit_Response _ => Cmd.GetCartesianLimit
  | SetControllerMode_Response _ => Cmd.SetControllerMode
  | SetCollisionBehavior_Response _ => Cmd.SetCollisionBehavior
  | SetJointImpedance_Response _ => Cmd.SetJointImpedance
  | SetCartesianImpedance_Response _ => Cmd.SetCartesianImpedance
  | SetGuidingMode_Response _ => Cmd.SetGuidingMode
  | SetEEToK_Response _ => Cmd.SetEEToK
  | SetFToEE_Response _ => Cmd.SetFToEE
  | SetLoad_Response _ => Cmd.SetLoad
  | SetTimeScalingFactor_Response _ => Cmd.SetTimeScalingFactor
  | AutomaticErrorRecovery_Response _ => Cmd.AutomaticErrorRecovery
  | ResetExternalTorqueAndForceMax_Response _ => Cmd.ResetExternalTorqueAndForceMax
  end.

Definition Response_function (y : Response) : Function :=
  match y with
  | Connect_Response r => ResponseBase.function (Connect.Response_base r)
  | StartMotionGenerator_Response r => ResponseBase.function r
  | StopMotionGenerator_Response r => ResponseBase.function r
  | StartController_Response r => ResponseBase.function r
  | StopController_Response r => ResponseBase.function r
  | GetCartesianLimit_Response r => ResponseBase.function (GetCartesianLimit.Response_base r)
  | SetControllerMode_Response r => ResponseBase.function r
  | SetCollisionBehavior_Response r => ResponseBase.function r
  | SetJointImpedance_Response r => ResponseBase.function r
  | SetCartesianImpedance_Response r => ResponseBase.function r
  | SetGuidingMode_Response r => ResponseBase.function r
  | SetEEToK_Response r => ResponseBase.function r
  | SetFToEE_Response r => ResponseBase.function r
  | SetLoad_Response r => ResponseBase.function r
  | SetTimeScalingFactor_Response r => ResponseBase.function r
  | AutomaticErrorRecovery_Response r => ResponseBase.function r
  | ResetExternalTorqueAndForceMax_Response r => ResponseBase.function r
  end.

(** The status of a response, as the [uint32_t] under its enumeration. *)
Definition Response_status (y : Response) : Z :=
  match y with
  | Connect_Response r => Status_to_uint32 Cmd.Connect (ResponseBase.status (Connect.Response_base r))
  | StartMotionGenerator_Response r => Status_to_uint32 Cmd.StartMotionGenerator (ResponseBase.status r)
  | StopMotionGenerator_Response r => Status_to_uint32 Cmd.StopMotionGenerator (ResponseBase.status r)
  | StartController_Response r => Status_to_uint32 Cmd.StartController (ResponseBase.status r)
  | StopController_Response r => Status_to_uint32 Cmd.StopController (ResponseBase.status r)
  | GetCartesianLimit_Response r => Status_to_uint32 Cmd.GetCartesianLimit (ResponseBase.status (GetCartesianLimit.Response_base r))
  | SetControllerMode_Response r => Status_to_uint32 Cmd.SetControllerMode (ResponseBase.status r)
  | SetCollisionBehavior_Response r => Status_to_uint32 Cmd.SetCollisionBehavior (ResponseBase.status r)
  | SetJointImpedance_Response r => Status_to_uint32 Cmd.SetJointImpedance (ResponseBase.status r)
  | SetCartesianImpedance_Response r => Status_to_uint32 Cmd.SetCartesianImpedance (ResponseBase.status r)
  | SetGuidingMode_Response r => Status_to_uint32 Cmd.SetGuidingMode (ResponseBase.status r)
  | SetEEToK_Response r => Status_to_uint32 Cmd.SetEEToK (ResponseBase.status r)
  | SetFToEE_Response r => Status_to_uint32 Cmd.SetFToEE (ResponseBase.status r)
  | SetLoad_Response r => Status_to_uint32 Cmd.SetLoad (ResponseBase.status r)
  | SetTimeScalingFactor_Response r => Status_to_uint32 Cmd.SetTimeScalingFactor (ResponseBase.status r)
  | AutomaticErrorRecovery_Response r => Status_to_uint32 Cmd.AutomaticErrorRecovery (ResponseBase.status r)
  | ResetExternalTorqueAndForceMax_Response r => Status_to_uint32 Cmd.ResetExternalTorqueAndForceMax (ResponseBase.status r)
  end.

(** The requests a caller can build: one rule per constructor of the
    header, its arguments ranging over their C++ types. *)
Inductive Request_constructed : Cmd.t -> Request -> Prop :=
| new_Connect_Request (udp_port : Z) :
    is_uint16 udp_port = true ->
    Request_constructed Cmd.Connect (Connect_Request (Connect.make_Request udp_port))
| new_StartMotionGenerator_Request (mode : StartMotionGenerator.MotionGeneratorMode) :
    Request_constructed Cmd.StartMotionGenerator
      (StartMotionGenerator_Request (StartMotionGenerator.make_Request mode))
| new_StopMotionGenerator_Request :
    Request_constructed Cmd.StopMotionGenerator
      (StopMotionGenerator_Request StopMotionGenerator.make_Request)
| new_StartController_Request :
    Request_constructed Cmd.StartController
      (StartController_Request StartController.make_Request)
| new_StopController_Request :
    Request_constructed Cmd.StopController
      (StopController_Request StopController.make_Request)
| new_GetCartesianLimit_Request :
    Request_constructed Cmd.GetCartesianLimit
      (GetCartesianLimit_Request GetCartesianLimit.make_Request)
| new_SetControllerMode_Request (mode : SetControllerMode.ControllerMode) :
    Request_constructed Cmd.SetControllerMode
      (SetControllerMode_Request (SetControllerMode.make_Request mode))
| new_SetCollisionBehavior_Request (ta tn fa fn : list double) :
    is_array is_double 14 ta = true -> is_array is_double 14 tn = true ->
    is_array is_double 12 fa = true -> is_array is_double 12 fn = true ->
    Request_constructed Cmd.SetCollisionBehavior
      (SetCollisionBehavior_Request (SetCollisionBehavior.make_Request ta tn fa fn))
| new_SetJointImpedance_Request (K_theta : list double) :
    is_array is_double 7 K_theta = true ->
    Request_constructed Cmd.SetJointImpedance
      (SetJointImpedance_Request (SetJointImpedance.make_Request K_theta))
| new_SetCartesianImpedance_Request (K_x : list double) :
    is_array is_double 6 K_x = true ->
    Request_constructed Cmd.SetCartesianImpedance
      (SetCartesianImpedance_Request (SetCartesianImpedance.make_Request K_x))
| new_SetGuidingMode_Request (guiding_mode : list bool) (nullspace : bool) :
    is_array (fun _ => true) 6 guiding_mode = true ->
    Request_constructed Cmd.SetGuidingMode
      (SetGuidingMode_Request (SetGuidingMode.make_Request guiding_mode nullspace))
| new_SetEEToK_Request (EE_T_K : list double) :
    is_array is_double 16 EE_T_K = true ->
    Request_constructed Cmd.SetEEToK (SetEEToK_Request (SetEEToK.make_Request EE_T_K))
| new_SetFToEE_Request (F_T_EE : list double) :
    is_array is_double 16 F_T_EE = true ->
    Request_constructed Cmd.SetFToEE (SetFToEE_Request (SetFToEE.make_Request F_T_EE))
| new_SetLoad_Request (m_load : double) (F_x_Cload I_load : list double) :
    is_double m_load = true ->
    is_array is_double 3 F_x_Cload = true -> is_array is_double 9 I_load = true ->
    Request_constructed Cmd.SetLoad
      (SetLoad_Request (SetLoad.make_Request m_load F_x_Cload I_load))
| new_SetTimeScalingFactor_Request (time_scaling_factor : double) :
    is_double time_scaling_factor = true ->
    Request_constructed Cmd.SetTimeScalingFactor
      (SetTimeScalingFactor_Request (SetTimeScalingFactor.make_Request time_scaling_factor))
| new_AutomaticErrorRecovery_Request :
    Request_constructed Cmd.AutomaticErrorRecovery
      (AutomaticErrorRecovery_Request AutomaticErrorRecovery.make_Request)
| new_ResetExternalTorqueAndForceMax_Request :
    Request_constructed Cmd.ResetExternalTorqueAndForceMax
      (ResetExternalTorqueAndForceMax_Request ResetExternalTorqueAndForceMax.make_Request).

(** The responses a peer can build, likewise. *)
Inductive Response_constructed : Cmd.t -> Response -> Prop :=
| new_Connect_Response (status : Connect.Status) :
    Response_constructed Cmd.Connect
      (Connect_Response (Connect.make_Response status))
| new_StartMotionGenerator_Response (status : StartMotionGenerator.Status) :
    Response_constructed Cmd.StartMotionGenerator
      (StartMotionGenerator_Response (StartMotionGenerator.make_Response status))
| new_StopMotionGenerator_Response (status : StopMotionGenerator.Status) :
    Response_constructed Cmd.StopMotionGenerator
      (StopMotionGenerator_Response (StopMotionGenerator.make_Response status))
| new_StartController_Response (status : StartController.Status) :
    Response_constructed Cmd.StartController
      (StartController_Response (StartController.make_Response status))
| new_StopController_Response (status : StopController.Status) :
    Response_constructed Cmd.StopController
      (StopController_Response (StopController.make_Response status))
| new_GetCartesianLimit_Response (status : GetCartesianLimit.Status) :
    Response_constructed Cmd.GetCartesianLimit
      (GetCartesianLimit_Response (GetCartesianLimit.make_Response status))
| new_GetCartesianLimit_Response_with (status : GetCartesianLimit.Status)
    (p_min p_max frame : list double) (activation : bool) :
    is_array is_double 3 p_min = true -> is_array is_double 3 p_max = true ->
    is_array is_double 16 frame = true ->
    Response_constructed Cmd.GetCartesianLimit
      (GetCartesianLimit_Response
         (GetCartesianLimit.make_Response_with status p_min p_max frame activation))
| new_SetControllerMode_Response (status : SetControllerMode.Status) :
    Response_constructed Cmd.SetControllerMode
      (SetControllerMode_Response (SetControllerMode.make_Response status))
| new_SetCollisionBehavior_Response (status : SetCollisionBehavior.Status) :
    Response_constructed Cmd.SetCollisionBehavior
      (SetCollisionBehavior_Response (SetCollisionBehavior.make_Response status))
| new_SetJointImpedance_Response (status : SetJointImpedance.Status) :
    Response_constructed Cmd.SetJointImpedance
      (SetJointImpedance_Response (SetJointImpedance.make_Response status))
| new_SetCartesianImpedance_Response (status : SetCartesianImpedance.Status) :
    Response_constructed Cmd.SetCartesianImpedance
      (SetCartesianImpedance_Response (SetCartesianImpedance.make_Response status))
| new_SetGuidingMode_Response (status : SetGuidingMode.Status) :
    Response_constructed Cmd.SetGuidingMode
      (SetGuidingMode_Response (SetGuidingMode.make_Response status))
| new_SetEEToK_Response (status : SetEEToK.Status) :
    Response_constructed Cmd.SetEEToK
      (SetEEToK_Response (SetEEToK.make_Response status))
| new_SetFToEE_Response (status : SetFToEE.Status) :
    Response_constructed Cmd.SetFToEE
      (SetFToEE_Response (SetFToEE.make_Response status))
| new_SetLoad_Response (status : SetLoad.Status) :
    Response_constructed Cmd.SetLoad
      (SetLoad_Response (SetLoad.make_Response status))
| new_SetTimeScalingFactor_Response (status : SetTimeScalingFactor.Status) :
    Response_constructed Cmd.SetTimeScalingFactor
      (SetTimeScalingFactor_Response (SetTimeScalingFactor.make_Response status))
| new_AutomaticErrorRecovery_Response (status : AutomaticErrorRecovery.Status) :
    Response_constructed Cmd.AutomaticErrorRecovery
      (AutomaticErrorRecovery_Response (AutomaticErrorRecovery.make_Response status))
| new_ResetExternalTorqueAndForceMax_Response (status : ResetExternalTorqueAndForceMax.Status) :
    Response_constructed Cmd.ResetExternalTorqueAndForceMax
      (ResetExternalTorqueAndForceMax_Response (ResetExternalTorqueAndForceMax.make_Response status)).

(* ================================================================== *)
(** ** [research_interface::robot::Errors] *)

Module Errors.
(** The unnamed [enum : size_t] of [struct Errors]. *)
Inductive Error : Type :=
| kJointPositionLimitsViolation
| kCartesianPositionLimitsViolation
| kSelfcollisionAvoidanceViolation
| kJointVelocityViolation
| kCartesianVelocityViolation
| kForceControlSafetyViolation
| kJointReflex
| kCartesianReflex
| kMaxGoalPoseDeviationViolation
| kMaxPathPoseDeviationViolation
| kCartesianVelocityProfileSafetyViolation
| kJointPositionMotionGeneratorStartPoseInvalid
| kJointMotionGeneratorPositionLimitsViolation
| kJointMotionGeneratorVelocityLimitsViolation
| kJointMotionGeneratorVelocityDiscontinuity
| kJointMotionGeneratorAccelerationDiscontinuity
| kCartesianPositionMotionGeneratorStartPoseInvalid
| kCartesianMotionGeneratorElbowLimitViolation
| kCartesianMotionGeneratorVelocityLimitsViolation
| kCartesianMotionGeneratorVelocityDiscontinuity
| kCartesianMotionGeneratorAccelerationDiscontinuity
| kCartesianMotionGeneratorElbowSignInconsistent
| kCartesianMotionGeneratorStartElbowInvalid
| kForceControllerDesiredForceToleranceViolation
| kStartElbowSignInconsistent
| kCommunicationConstraintsViolation
| kPowerLimitViolation
| kCartesianMotionGeneratorJointPositionLimitsViolation
| kCartesianMotionGeneratorJointVelocityLimitsViolation
| kCartesianMotionGeneratorJointVelocityDiscontinuity
| kCartesianMotionGeneratorJointAccelerationDiscontinuity
| kCartesianPositionMotionGeneratorInvalidFrame
| kControllerTorqueDiscontinuity.

Scheme Equality for Error.

Definition decl : list Error :=
  [ kJointPositionLimitsViolation;
    kCartesianPositionLimitsViolation;
    kSelfcollisionAvoidanceViolation;
    kJointVelocityViolation;
    kCartesianVelocityViolation;
    kForceControlSafetyViolation;
    kJointReflex;
    kCartesianReflex;
    kMaxGoalPoseDeviationViolation;
    kMaxPathPoseDeviationViolation;
    kCartesianVelocityProfileSafetyViolation;
    kJointPositionMotionGeneratorStartPoseInvalid;
    kJointMotionGeneratorPositionLimitsViolation;
    kJointMotionGeneratorVelocityLimitsViolation;
    kJointMotionGeneratorVelocityDiscontinuity;
    kJointMotionGeneratorAccelerationDiscontinuity;
    kCartesianPositionMotionGeneratorStartPoseInvalid;
    kCartesianMotionGeneratorElbowLimitViolation;
    kCartesianMotionGeneratorVelocityLimitsViolation;
    kCartesianMotionGeneratorVelocityDiscontinuity;
    kCartesianMotionGeneratorAccelerationDiscontinuity;
    kCartesianMotionGeneratorElbowSignInconsistent;
    kCartesianMotionGeneratorStartElbowInvalid;
    kForceControllerDesiredForceToleranceViolation;
    kStartElbowSignInconsistent;
    kCommunicationConstraintsViolation;
    kPowerLimitViolation;
    kCartesianMotionGeneratorJointPositionLimitsViolation;
    kCartesianMotionGeneratorJointVelocityLimitsViolation;
    kCartesianMotionGeneratorJointVelocityDiscontinuity;
    kCartesianMotionGeneratorJointAccelerationDiscontinuity;
    kCartesianPositionMotionGeneratorInvalidFrame;
    kControllerTorqueDiscontinuity ].

Definition to_size_t (e : Error) : Z := enumerator_value Error_beq 0 decl e.
End Errors.

(* ================================================================== *)
(** ** Sizes of the declared members *)

(** The member types the header uses.  [uint32_t] stands for the
    enumerations too, all of which are declared [: uint32_t]. *)
Inductive ctype : Type :=
| uint16_t
| uint32_t
| double_t
| bool_t
| array_t (elem : ctype) (N : nat).

Fixpoint sizeof (t : ctype) : Z :=
  match t with
  | uint16_t => 2
  | uint32_t => 4
  | double_t => 8
  | bool_t => 1
  | array_t elem N => Z.of_nat N * sizeof elem
  end.

Fixpoint alignof (t : ctype) : Z :=
  match t with
  | uint16_t => 2
  | uint32_t => 4
  | double_t => 8
  | bool_t => 1
  | array_t elem _ => alignof elem
  end.

Definition member : Type := (string * ctype)%type.

(** The members [T::Request] declares after its [RequestBase] subobject,
    in declaration order. *)
Definition Request_members (T : Cmd.t) : list member :=
  match T with
  | Cmd.Connect => [("version", uint16_t); ("udp_port", uint16_t)]
  | Cmd.StartMotionGenerator => [("mode", uint32_t)]
  | Cmd.SetControllerMode => [("mode", uint32_t)]
  | Cmd.SetCollisionBehavior =>
      [("torque_thresholds_acceleration", array_t double_t 14);
       ("torque_thresholds_nominal", array_t double_t 14);
       ("force_thresholds_acceleration", array_t double_t 12);
       ("force_thresholds_nominal", array_t double_t 12)]
  | Cmd.SetJointImpedance => [("K_theta", array_t double_t 7)]
  | Cmd.SetCartesianImpedance => [("K_x", array_t double_t 6)]
  | Cmd.SetGuidingMode => [("guiding_mode", array_t bool_t 6); ("nullspace", bool_t)]
  | Cmd.SetEEToK => [("EE_T_K", array_t double_t 16)]
  | Cmd.SetFToEE => [("F_T_EE", array_t double_t 16)]
  | Cmd.SetLoad =>
      [("m_load", double_t); ("F_x_Cload", array_t double_t 3);
       ("I_load", array_t double_t 9)]
  | Cmd.SetTimeScalingFactor => [("time_scaling_factor", double_t)]
  | Cmd.StopMotionGenerator | Cmd.StartController | Cmd.StopController
  | Cmd.GetCartesianLimit | Cmd.AutomaticErrorRecovery
  | Cmd.ResetExternalTorqueAndForceMax => []
  end%string.

(** The members [T::Response] declares after its [ResponseBase] subobject
    (which holds [function] and [status]). *)
Definition Response_members (T : Cmd.t) : list member :=
  match T with
  | Cmd.Connect => [("version", uint16_t)]
  | Cmd.GetCartesianLimit =>
      [("object_p_min", array_t double_t 3); ("object_p_max", array_t double_t 3);
       ("object_frame", array_t double_t 16); ("object_activation", bool_t)]
  | _ => []
  end%string.

(** Bytes the members themselves occupy. *)
Definition payload_size (ms : list member) : Z :=
  fold_right (fun m acc => sizeof (snd m) + acc) 0 ms.

Definition align_up (offset alignment : Z) : Z :=
  (offset + alignment - 1) / alignment * alignment.

(** End offset when every member is placed at the next offset its
    alignment allows. *)
Fixpoint layout_end (offset : Z) (ms : list member) : Z :=
  match ms with
  | [] => offset
  | m :: rest => layout_end (align_up offset (alignof (snd m)) + sizeof (snd m)) rest
  end.

Definition members_align (ms : list member) : Z :=
  fold_right (fun m acc => Z.max (alignof (snd m)) acc) 1 ms.

(** Bytes of the members laid out in order and padded at the end to a
    multiple of their strictest alignment. *)
Definition padded_payload_size (ms : list member) : Z :=
  align_up (layout_end 0 ms) (members_align ms).

(* ================================================================== *)
(** ** Version negotiation and the session state machine *)

(** The enumerator of [T::Status] that has a given name, if [T::Status]
    declares one. *)
Definition Status_named (T : Cmd.t) (name : string) : option (StatusOf T) :=
  find (fun s => String.eqb (Status_name T s) name) (Status_decl T).

(** Modelled from the spec: the result of the Version Negotiator (spec 4.3),
    which the header does not contain. *)
Inductive Negotiation : Type :=
| Accepted
| Rejected_IncompatibleVersion.

(** Modelled from the spec: [negotiate(clientVersion, serverVersion)] of
    spec 4.3, absent from the header; equality is the only accepted
    relation. *)
Definition negotiate (clientVersion serverVersion : Version) : Negotiation :=
  if clientVersion =? serverVersion then Accepted else Rejected_IncompatibleVersion.

(** Modelled from the spec: one axis of the session state machine of
    spec 4.4 (Idle / Starting / Active), absent from the header. *)
Inductive Axis (M : Type) : Type :=
| Idle
| Starting (mode : M)
| Active (mode : M).
Arguments Idle {M}.
Arguments Starting {M} mode.
Arguments Active {M} mode.

Definition Axis_mode {M : Type} (a : Axis M) : option M :=
  match a with
  | Idle => None
  | Starting mode | Active mode => Some mode
  end.

(** Modelled from the spec: the SessionState of spec 3 (active controller
    mode or none, active motion-generator mode or none, the Faulted flag
    and the latched fault set), absent from the header. *)
Record SessionState : Type := Build_SessionState {
  controller_axis : Axis SetControllerMode.ControllerMode;
  motion_axis : Axis StartMotionGenerator.MotionGeneratorMode;
  faulted : bool;
  latched : list Errors.Error
}.

Definition fresh_SessionState : SessionState :=
  {| controller_axis := Idle; motion_axis := Idle; faulted := false; latched := [] |}.

(** Modelled from the spec: the Connect transition of spec 4.4, absent from
    the header.  It starts from Disconnected (no SessionState); a failed
    negotiation creates none.  The response is built by the header's
    constructor. *)
Definition Connect_step (serverVersion : Version) (request : Connect.Request)
    : Connect.Response * option SessionState :=
  match negotiate (Connect.version request) serverVersion with
  | Accepted => (Connect.make_Response Connect.kSuccess, Some fresh_SessionState)
  | Rejected_IncompatibleVersion =>
      (Connect.make_Response Connect.kIncompatibleLibraryVersion, None)
  end.

(** Modelled from the spec: what the state machine of spec 4.4 decides for a
    start command, by the name of the status the spec gives it. *)
Inductive Outcome : Type :=
| Succeeded
| Rejected.

Definition Outcome_name (o : Outcome) : string :=
  match o with
  | Succeeded => "kSuccess"%string
  | Rejected => "kRejected"%string
  end.

(** The value of [T::Status] in which a response of command [T] can carry
    an outcome: the enumerator of that name, when the header declares it. *)
Definition Outcome_status (T : Cmd.t) (o : Outcome) : option (StatusOf T) :=
  Status_named T (Outcome_name o).

(** Modelled from the spec: the legality rule of spec 4.4 for starting an
    axis, absent from the header: legal only from Idle, where the axis
    becomes Active with the given mode; otherwise rejected, not queued. *)
Definition start_axis {M : Type} (mode : M) (a : Axis M) : Outcome * Axis M :=
  match a with
  | Idle => (Succeeded, Active mode)
  | Starting _ | Active _ => (Rejected, a)
  end.

(** Modelled from the spec: [StartController(mode)] of spec 4.4, absent from
    the header. *)
Definition StartController_step (mode : SetControllerMode.ControllerMode)
    (s : SessionState) : Outcome * SessionState :=
  let (o, a) := start_axis mode (controller_axis s) in
  (o, {| controller_axis := a; motion_axis := motion_axis s;
         faulted := faulted s; latched := latched s |}).

(** Modelled from the spec: [StartMotionGenerator(mode)] of spec 4.4, absent
    from the header: the rule of [StartController] on the motion axis. *)
Definition StartMotionGenerator_step (mode : StartMotionGenerator.MotionGeneratorMode)
    (s : SessionState) : Outcome * SessionState :=
  let (o, a) := start_axis mode (motion_axis s) in
  (o, {| controller_axis := controller_axis s; motion_axis := a;
         faulted := faulted s; latched := latched s |}).

(* ================================================================== *)
(** ** Error classification *)

Section Classifier.
(** The raw fault signal of the real-time loop is not part of the header:
    any type of flags, each standing for one named violation. *)
Variable RawFlag : Type.
Variable kind_of : RawFlag -> Errors.Error.

(** Modelled from the spec: [classify(rawSafetyFlags)] of spec 4.5, absent
    from the header: the named kinds of the raised flags, each kept once. *)
Definition classify (rawSafetyFlags : list RawFlag) : list Errors.Error :=
  nodup Errors.Error_eq_dec (map kind_of rawSafetyFlags).
End Classifier.

(* ================================================================== *)
(** ** The wire codec *)

(** The Command Registry lookup (spec 4.2): the struct a FunctionId names. *)
Definition command_of_Function (f : Function) : Cmd.t :=
  match f with
  | kConnect => Cmd.Connect
  | kStartMotionGenerator => Cmd.StartMotionGenerator
  | kStopMotionGenerator => Cmd.StopMotionGenerator
  | kStartController => Cmd.StartController
  | kStopController => Cmd.StopController
  | kGetCartesianLimit => Cmd.GetCartesianLimit
  | kSetControllerMode => Cmd.SetControllerMode
  | kSetCollisionBehavior => Cmd.SetCollisionBehavior
  | kSetJointImpedance => Cmd.SetJointImpedance
  | kSetCartesianImpedance => Cmd.SetCartesianImpedance
  | kSetGuidingMode => Cmd.SetGuidingMode
  | kSetEEToK => Cmd.SetEEToK
  | kSetFToEE => Cmd.SetFToEE
  | kSetLoad => Cmd.SetLoad
  | kSetTimeScalingFactor => Cmd.SetTimeScalingFactor
  | kAutomaticErrorRecovery => Cmd.AutomaticErrorRecovery
  | kResetExternalTorqueAndForceMax => Cmd.ResetExternalTorqueAndForceMax
  end.

(** Decoders consume a prefix of the bytes or fail. *)
Definition decoder (A : Type) : Type := list byte -> option (A * list byte).

Definition ret {A : Type} (a : A) : decoder A := fun bs => Some (a, bs).

Definition fail {A : Type} : decoder A := fun _ => None.

Definition bind {A B : Type} (d : decoder A) (k : A -> decoder B) : decoder B :=
  fun bs => match d bs with
            | Some (a, rest) => k a rest
            | None => None
            end.

Notation "x <- d ;; k" := (bind d (fun x => k))
  (at level 61, d at next level, right associativity).

Definition of_option {A : Type} (o : option A) : decoder A :=
  match o with
  | Some a => ret a
  | None => fail
  end.

(** Modelled from the spec: the fixed byte order of spec 4.1 and 6
    (little-endian) for an unsigned integer of [n] bytes; the header has no
    codec. *)
Definition encode_uint (n : nat) (z : Z) : list byte := le_split n z.

Definition decode_uint (n : nat) : decoder Z :=
  fun bs => if (List.length bs <? n)%nat then None
            else Some (le_combine (firstn n bs), skipn n bs).

Definition encode_bool (b : bool) : list byte := encode_uint 1 (if b then 1 else 0).

Definition decode_bool : decoder bool :=
  z <- decode_uint 1 ;; ret (negb (z =? 0)).

Definition encode_double (d : double) : list byte := encode_uint 8 d.

Definition decode_double : decoder double := decode_uint 8.

Definition encode_array {A : Type} (enc : A -> list byte) (a : list A) : list byte :=
  flat_map enc a.

Fixpoint decode_array {A : Type} (dec : decoder A) (N : nat) : decoder (list A) :=
  match N with
  | O => ret []
  | S N' => x <- dec ;; xs <- decode_array dec N' ;; ret (x :: xs)
  end.

Definition skip_bytes (n : nat) : decoder unit :=
  fun bs => if (List.length bs <? n)%nat then None else Some (tt, skipn n bs).

(** Modelled from the spec: [FunctionId: 4 bytes] of the wire frame of
    spec 6; an unknown FunctionId is a framing error (spec 7). *)
Definition encode_Function (f : Function) : list byte :=
  encode_uint 4 (Function_to_uint32 f).

Definition decode_Function : decoder Function :=
  v <- decode_uint 4 ;; of_option (enumerator_of_value 0 Function_decl v).

Definition encode_Status (T : Cmd.t) (s : StatusOf T) : list byte :=
  encode_uint 4 (Status_to_uint32 T s).

Definition decode_Status (T : Cmd.t) : decoder (StatusOf T) :=
  v <- decode_uint 4 ;; of_option (Status_of_uint32 T v).

Definition encode_RequestBase (b : RequestBase.t) : list byte :=
  encode_Function (RequestBase.function b).

Definition decode_RequestBase : decoder RequestBase.t :=
  f <- decode_Function ;; ret (RequestBase.Build f).

Definition encode_ResponseBase (T : Cmd.t) (b : ResponseBase.t (StatusOf T)) : list byte :=
  encode_Function (ResponseBase.function b) ++ encode_Status T (ResponseBase.status b).

Definition decode_ResponseBase (T : Cmd.t) : decoder (ResponseBase.t (StatusOf T)) :=
  f <- decode_Function ;; s <- decode_Status T ;; ret (ResponseBase.Build f s).

Definition encode_MotionGeneratorMode (m : StartMotionGenerator.MotionGeneratorMode)
    : list byte :=
  encode_uint 4 (StartMotionGenerator.MotionGeneratorMode_to_uint32 m).

Definition decode_MotionGeneratorMode
    : decoder StartMotionGenerator.MotionGeneratorMode :=
  v <- decode_uint 4 ;;
  of_option (enumerator_of_value 0 StartMotionGenerator.MotionGeneratorMode_decl v).

Definition encode_ControllerMode (m : SetControllerMode.ControllerMode) : list byte :=
  encode_uint 4 (SetControllerMode.ControllerMode_to_uint32 m).

Definition decode_ControllerMode : decoder SetControllerMode.ControllerMode :=
  v <- decode_uint 4 ;;
  of_option (enumerator_of_value 0 SetControllerMode.ControllerMode_decl v).

(** What a decoding yields: the value, or the FramingError of spec 4.1. *)
Inductive decoded (A : Type) : Type :=
| Decoded (a : A)
| FramingError.
Arguments Decoded {A} a.
Arguments FramingError {A}.

(** Runs a decoder on a frame whose length has to be the fixed one. *)
Definition decode_frame {A : Type} (frame_length : nat) (d : decoder A)
    (bytes : list byte) : decoded A :=
  if (List.length bytes =? frame_length)%nat then
    match d bytes with
    | Some (a, _) => Decoded a
    | None => FramingError
    end
  else FramingError.

(** Modelled from the spec: [encode(Request)] of spec 4.1 with the request
    frame of spec 6, [FunctionId: 4 bytes] then the members in declaration
    order; the header has no codec. *)
Definition encode_Request (x : Request) : list byte :=
  match x with
  | Connect_Request r =>
      encode_RequestBase (Connect.Request_base r)
      ++ encode_uint 2 (Connect.version r) ++ encode_uint 2 (Connect.udp_port r)
  | StartMotionGenerator_Request r =>
      encode_RequestBase (StartMotionGenerator.Request_base r)
      ++ encode_MotionGeneratorMode (StartMotionGenerator.mode r)
  | SetControllerMode_Request r =>
      encode_RequestBase (SetControllerMode.Request_base r)
      ++ encode_ControllerMode (SetControllerMode.mode r)
  | SetCollisionBehavior_Request r =>
      encode_RequestBase (SetCollisionBehavior.Request_base r)
      ++ encode_array encode_double (SetCollisionBehavior.torque_thresholds_acceleration r)
      ++ encode_array encode_double (SetCollisionBehavior.torque_thresholds_nominal r)
      ++ encode_array encode_double (SetCollisionBehavior.force_thresholds_acceleration r)
      ++ encode_array encode_double (SetCollisionBehavior.force_thresholds_nominal r)
  | SetJointImpedance_Request r =>
      encode_RequestBase (SetJointImpedance.Request_base r)
      ++ encode_array encode_double (SetJointImpedance.K_theta r)
  | SetCartesianImpedance_Request r =>
      encode_RequestBase (SetCartesianImpedance.Request_base r)
      ++ encode_array encode_double (SetCartesianImpedance.K_x r)
  | SetGuidingMode_Request r =>
      encode_RequestBase (SetGuidingMode.Request_base r)
      ++ encode_array encode_bool (SetGuidingMode.guiding_mode r)
      ++ encode_bool (SetGuidingMode.nullspace r)
  | SetEEToK_Request r =>
      encode_RequestBase (SetEEToK.Request_base r)
      ++ encode_array encode_double (SetEEToK.EE_T_K r)
  | SetFToEE_Request r =>
      encode_RequestBase (SetFToEE.Request_base r)
      ++ encode_array encode_double (SetFToEE.F_T_EE r)
  | SetLoad_Request r =>
      encode_RequestBase (SetLoad.Request_base r)
      ++ encode_double (SetLoad.m_load r)
      ++ encode_array encode_double (SetLoad.F_x_Cload r)
      ++ encode_array encode_double (SetLoad.I_load r)
  | SetTimeScalingFactor_Request r =>
      encode_RequestBase (SetTimeScalingFactor.Request_base r)
      ++ encode_double (SetTimeScalingFactor.time_scaling_factor r)
  | StopMotionGenerator_Request r => encode_RequestBase r
  | StartController_Request r => encode_RequestBase r
  | StopController_Request r => encode_RequestBase r
  | GetCartesianLimit_Request r => encode_RequestBase r
  | AutomaticErrorRecovery_Request r => encode_RequestBase r
  | ResetExternalTorqueAndForceMax_Request r => encode_RequestBase r
  end.

(** Modelled from the spec: the request decoder of spec 4.1 for the struct
    [T]; it reads what [encode_Request] writes, in the same order. *)
Definition decode_Request_of (T : Cmd.t) : decoder Request :=
  b <- decode_RequestBase ;;
  match T with
  | Cmd.Connect =>
      version <- decode_uint 2 ;; udp_port <- decode_uint 2 ;;
      ret (Connect_Request (Connect.Build_Request b version udp_port))
  | Cmd.StartMotionGenerator =>
      mode <- decode_MotionGeneratorMode ;;
      ret (StartMotionGenerator_Request (StartMotionGenerator.Build_Request b mode))
  | Cmd.SetControllerMode =>
      mode <- decode_ControllerMode ;;
      ret (SetControllerMode_Request (SetControllerMode.Build_Request b mode))
  | Cmd.SetCollisionBehavior =>
      ta <- decode_array decode_double 14 ;; tn <- decode_array decode_double 14 ;;
      fa <- decode_array decode_double 12 ;; fn <- decode_array decode_double 12 ;;
      ret (SetCollisionBehavior_Request (SetCollisionBehavior.Build_Request b ta tn fa fn))
  | Cmd.SetJointImpedance =>
      K_theta <- decode_array decode_double 7 ;;
      ret (SetJointImpedance_Request (SetJointImpedance.Build_Request b K_theta))
  | Cmd.SetCartesianImpedance =>
      K_x <- decode_array decode_double 6 ;;
      ret (SetCartesianImpedance_Request (SetCartesianImpedance.Build_Request b K_x))
  | Cmd.SetGuidingMode =>
      guiding_mode <- decode_array decode_bool 6 ;; nullspace <- decode_bool ;;
      ret (SetGuidingMode_Request (SetGuidingMode.Build_Request b guiding_mode nullspace))
  | Cmd.SetEEToK =>
      EE_T_K <- decode_array decode_double 16 ;;
      ret (SetEEToK_Request (SetEEToK.Build_Request b EE_T_K))
  | Cmd.SetFToEE =>
      F_T_EE <- decode_array decode_double 16 ;;
      ret (SetFToEE_Request (SetFToEE.Build_Request b F_T_EE))
  | Cmd.SetLoad =>
      m_load <- decode_double ;; F_x_Cload <- decode_array decode_double 3 ;;
      I_load <- decode_array decode_double 9 ;;
      ret (SetLoad_Request (SetLoad.Build_Request b m_load F_x_Cload I_load))
  | Cmd.SetTimeScalingFactor =>
      time_scaling_factor <- decode_double ;;
      ret (SetTimeScalingFactor_Request
             (SetTimeScalingFactor.Build_Request b time_scaling_factor))
  | Cmd.StopMotionGenerator => ret (StopMotionGenerator_Request b)
  | Cmd.StartController => ret (StartController_Request b)
  | Cmd.StopController => ret (StopController_Request b)
  | Cmd.GetCartesianLimit => ret (GetCartesianLimit_Request b)
  | Cmd.AutomaticErrorRecovery => ret (AutomaticErrorRecovery_Request b)
  | Cmd.ResetExternalTorqueAndForceMax => ret (ResetExternalTorqueAndForceMax_Request b)
  end.

(** Modelled from the spec: the fixed length of a request frame (spec 4.1):
    the 4-byte FunctionId and the members of the request. *)
Definition Request_frame_length (f : Function) : nat :=
  Z.to_nat (4 + payload_size (Request_members (command_of_Function f))).

(** Modelled from the spec: [decode(bytes, FunctionId)] of spec 4.1 for
    requests; a length other than the fixed one is a FramingError. *)
Definition decode_Request (f : Function) (bytes : list byte) : decoded Request :=
  decode_frame (Request_frame_length f) (decode_Request_of (command_of_Function f)) bytes.

Section ResponseCodec.
(** The number of padding bytes after the trailing boolean of the
    Cartesian-limit result, which the spec leaves to the implementer
    (spec 9, open question). *)
Variable activation_padding : nat.

(** Modelled from the spec: the response frame of spec 6,
    [FunctionId: 4 bytes][Status: 4 bytes] then the result members; the
    header has no codec. *)
Definition encode_Response (y : Response) : list byte :=
  match y with
  | Connect_Response r =>
      encode_ResponseBase Cmd.Connect (Connect.Response_base r)
      ++ encode_uint 2 (Connect.Response_version r)
  | GetCartesianLimit_Response r =>
      encode_ResponseBase Cmd.GetCartesianLimit (GetCartesianLimit.Response_base r)
      ++ encode_array encode_double (GetCartesianLimit.object_p_min r)
      ++ encode_array encode_double (GetCartesianLimit.object_p_max r)
      ++ encode_array encode_double (GetCartesianLimit.object_frame r)
      ++ encode_bool (GetCartesianLimit.object_activation r)
      ++ repeat Byte.x00 activation_padding
  | StartMotionGenerator_Response r => encode_ResponseBase Cmd.StartMotionGenerator r
  | StopMotionGenerator_Response r => encode_ResponseBase Cmd.StopMotionGenerator r
  | StartController_Response r => encode_ResponseBase Cmd.StartController r
  | StopController_Response r => encode_ResponseBase Cmd.StopController r
  | SetControllerMode_Response r => encode_ResponseBase Cmd.SetControllerMode r
  | SetCollisionBehavior_Response r => encode_ResponseBase Cmd.SetCollisionBehavior r
  | SetJointImpedance_Response r => encode_ResponseBase Cmd.SetJointImpedance r
  | SetCartesianImpedance_Response r => encode_ResponseBase Cmd.SetCartesianImpedance r
  | SetGuidingMode_Response r => encode_ResponseBase Cmd.SetGuidingMode r
  | SetEEToK_Response r => encode_ResponseBase Cmd.SetEEToK r
  | SetFToEE_Response r => encode_ResponseBase Cmd.SetFToEE r
  | SetLoad_Response r => encode_ResponseBase Cmd.SetLoad r
  | SetTimeScalingFactor_Response r => encode_ResponseBase Cmd.SetTimeScalingFactor r
  | AutomaticErrorRecovery_Response r => encode_ResponseBase Cmd.AutomaticErrorRecovery r
  | ResetExternalTorqueAndForceMax_Response r => encode_ResponseBase Cmd.ResetExternalTorqueAndForceMax r
  end.

Definition decode_Response_of (T : Cmd.t) : decoder Response :=
  match T with
  | Cmd.Connect =>
      b <- decode_ResponseBase Cmd.Connect ;; version <- decode_uint 2 ;;
      ret (Connect_Response (Connect.Build_Response b version))
  | Cmd.GetCartesianLimit =>
      b <- decode_ResponseBase Cmd.GetCartesianLimit ;;
      p_min <- decode_array decode_double 3 ;; p_max <- decode_array decode_double 3 ;;
      frame <- decode_array decode_double 16 ;; activation <- decode_bool ;;
      _ <- skip_bytes activation_padding ;;
      ret (GetCartesianLimit_Response
             (GetCartesianLimit.Build_Response b p_min p_max frame activation))
  | Cmd.StartMotionGenerator =>
      b <- decode_ResponseBase Cmd.StartMotionGenerator ;; ret (StartMotionGenerator_Response b)
  | Cmd.StopMotionGenerator =>
      b <- decode_ResponseBase Cmd.StopMotionGenerator ;; ret (StopMotionGenerator_Response b)
  | Cmd.StartController =>
      b <- decode_ResponseBase Cmd.StartController ;; ret (StartController_Response b)
  | Cmd.StopController =>
      b <- decode_ResponseBase Cmd.StopController ;; ret (StopController_Response b)
  | Cmd.SetControllerMode =>
      b <- decode_ResponseBase Cmd.SetControllerMode ;; ret (SetControllerMode_Response b)
  | Cmd.SetCollisionBehavior =>
      b <- decode_ResponseBase Cmd.SetCollisionBehavior ;; ret (SetCollisionBehavior_Response b)
  | Cmd.SetJointImpedance =>
      b <- decode_ResponseBase Cmd.SetJointImpedance ;; ret (SetJointImpedance_Response b)
  | Cmd.SetCartesianImpedance =>
      b <- decode_ResponseBase Cmd.SetCartesianImpedance ;; ret (SetCartesianImpedance_Response b)
  | Cmd.SetGuidingMode =>
      b <- decode_ResponseBase Cmd.SetGuidingMode ;; ret (SetGuidingMode_Response b)
  | Cmd.SetEEToK =>
      b <- decode_ResponseBase Cmd.SetEEToK ;; ret (SetEEToK_Response b)
  | Cmd.SetFToEE =>
      b <- decode_ResponseBase Cmd.SetFToEE ;; ret (SetFToEE_Response b)
  | Cmd.SetLoad =>
      b <- decode_ResponseBase Cmd.SetLoad ;; ret (SetLoad_Response b)
  | Cmd.SetTimeScalingFactor =>
      b <- decode_ResponseBase Cmd.SetTimeScalingFactor ;; ret (SetTimeScalingFactor_Response b)
  | Cmd.AutomaticErrorRecovery =>
      b <- decode_ResponseBase Cmd.AutomaticErrorRecovery ;; ret (AutomaticErrorRecovery_Response b)
  | Cmd.ResetExternalTorqueAndForceMax =>
      b <- decode_ResponseBase Cmd.ResetExternalTorqueAndForceMax ;; ret (ResetExternalTorqueAndForceMax_Response b)
  end.

Definition Response_padding (T : Cmd.t) : nat :=
  match T with
  | Cmd.GetCartesianLimit => activation_padding
  | _ => O
  end.

Definition Response_frame_length (f : Function) : nat :=
  (Z.to_nat (8 + payload_size (Response_members (command_of_Function f)))
   + Response_padding (command_of_Function f))%nat.

(** Modelled from the spec: [decode(bytes, FunctionId)] of spec 4.1 for
    responses. *)
Definition decode_Response (f : Function) (bytes : list byte) : decoded Response :=
  decode_frame (Response_frame_length f) (decode_Response_of (command_of_Function f)) bytes.
End ResponseCodec.

(** [decodes dec enc a]: the decoder reads [a] off the front of any input
    that starts with [enc], and leaves the rest. *)
Definition decodes {A : Type} (dec : decoder A) (enc : list byte) (a : A) : Prop :=
  forall rest : list byte, dec (enc ++ rest) = Some (a, rest).

(* ================================================================== *)
(** * Properties *)

(** ** Enumerations *)

Section EnumeratorFacts.
Context {A : Type} (eqb : A -> A -> bool).
Hypothesis eqb_eq : forall a b, eqb a b = true <-> a = b.

Lemma enumerator_value_lower (decl : list A) (next : Z) (x : A) :
  next <= enumerator_value eqb next decl x.
Proof.
  revert next. induction decl as [|e rest IH]; intros next; simpl.
  - lia.
  - destruct (eqb e x); [lia|]. specialize (IH (next + 1)). lia.
Qed.

Lemma enumerator_value_upper (decl : list A) (next : Z) (x : A) :
  In x decl -> enumerator_value eqb next decl x < next + Z.of_nat (List.length decl).
Proof.
  revert next. induction decl as [|e rest IH]; intros next Hin; simpl in *.
  - contradiction.
  - destruct (eqb e x) eqn:E; [lia|].
    destruct Hin as [->|Hin].
    + assert (eqb x x = true) by (apply eqb_eq; reflexivity). congruence.
    + specialize (IH (next + 1) Hin). lia.
Qed.

(** Decoding the value of a declared enumerator gives it back. *)
Lemma enumerator_of_value_value (decl : list A) (next : Z) (x : A) :
  In x decl ->
  enumerator_of_value next decl (enumerator_value eqb next decl x) = Some x.
Proof.
  revert next. induction decl as [|e rest IH]; intros next Hin; simpl in *.
  - contradiction.
  - destruct (eqb e x) eqn:E.
    + rewrite Z.eqb_refl. apply eqb_eq in E. now subst.
    + destruct Hin as [->|Hin].
      * assert (eqb x x = true) by (apply eqb_eq; reflexivity). congruence.
      * pose proof (enumerator_value_lower rest (next + 1) x) as Hlow.
        destruct (Z.eqb_spec (enumerator_value eqb (next + 1) rest x) next); [lia|].
        now apply IH.
Qed.

(** Two declared enumerators with one value are one enumerator. *)
Lemma enumerator_value_inj (decl : list A) (next : Z) (x y : A) :
  In x decl -> In y decl ->
  enumerator_value eqb next decl x = enumerator_value eqb next decl y -> x = y.
Proof.
  intros Hx Hy Heq.
  pose proof (enumerator_of_value_value decl next x Hx) as Ex.
  pose proof (enumerator_of_value_value decl next y Hy) as Ey.
  rewrite Heq in Ex. congruence.
Qed.
End EnumeratorFacts.

Lemma Function_beq_eq (f g : Function) : Function_beq f g = true <-> f = g.
Proof.
  split.
  - apply internal_Function_dec_bl.
  - apply internal_Function_dec_lb.
Qed.

Lemma Function_decl_complete (f : Function) : In f Function_decl.
Proof. destruct f; simpl; tauto. Qed.

Lemma kFunction_command_of_Function (f : Function) :
  kFunction (command_of_Function f) = f.
Proof. now destruct f. Qed.

Lemma command_of_Function_kFunction (T : Cmd.t) :
  command_of_Function (kFunction T) = T.
Proof. now destruct T. Qed.

Lemma Function_to_uint32_range (f : Function) : 0 <= Function_to_uint32 f < 17.
Proof.
  pose proof (enumerator_value_lower Function_beq Function_decl 0 f).
  pose proof (enumerator_value_upper Function_beq Function_beq_eq
                Function_decl 0 f (Function_decl_complete f)).
  unfold Function_to_uint32. simpl List.length in *. lia.
Qed.

(** C7: [Function] is a closed enumeration of exactly seventeen
    operations, the ones the header lists from [kConnect] to
    [kResetExternalTorqueAndForceMax], one per command struct, and the
    seventeen enumerators have pairwise distinct values, 0 to 16. *)
Theorem Function_seventeen_distinct :
  List.length Function_decl = 17%nat /\
  NoDup Function_decl /\
  (forall f : Function, In f Function_decl) /\
  map Function_to_uint32 Function_decl = map Z.of_nat (seq 0 17) /\
  (forall f : Function, 0 <= Function_to_uint32 f < 17) /\
  (forall f g : Function, Function_to_uint32 f = Function_to_uint32 g <-> f = g) /\
  map kFunction Cmd.all = Function_decl.
Proof.
  split; [reflexivity|].
  split.
  { repeat (constructor; [simpl; intuition discriminate|]). constructor. }
  split; [exact Function_decl_complete|].
  split; [reflexivity|].
  split; [exact Function_to_uint32_range|].
  split; [|reflexivity].
  intros f g; split; [|now intros ->].
  apply (enumerator_value_inj Function_beq Function_beq_eq);
    apply Function_decl_complete.
Qed.

(** ** Status enumerations *)

Lemma Cmd_all_complete (T : Cmd.t) : In T Cmd.all.
Proof. destruct T; simpl; tauto. Qed.

Lemma Status_decl_complete (T : Cmd.t) (s : StatusOf T) : In s (Status_decl T).
Proof. destruct T; destruct s; simpl; tauto. Qed.

(** C2: for each of the seventeen commands the status enumeration is
    encoded in a [uint32_t], has an enumerator named [kSuccess] whose
    value is 0, and no other enumerator of it has the value 0. *)
Theorem Status_zero_is_kSuccess :
  List.length Cmd.all = 17%nat /\
  (forall T : Cmd.t, In T Cmd.all) /\
  forall (T : Cmd.t) (s : StatusOf T),
    is_uint32 (Status_to_uint32 T s) = true /\
    In (Status_kSuccess T) (Status_decl T) /\
    Status_name T (Status_kSuccess T) = "kSuccess"%string /\
    Status_to_uint32 T (Status_kSuccess T) = 0 /\
    (Status_to_uint32 T s = 0 <-> s = Status_kSuccess T).
Proof.
  split; [reflexivity|].
  split; [exact Cmd_all_complete|].
  intros T s.
  split; [destruct T; destruct s; reflexivity|].
  split; [apply Status_decl_complete|].
  split; [destruct T; reflexivity|].
  split; [destruct T; reflexivity|].
  split.
  - destruct T; destruct s; simpl; intros H; try reflexivity; discriminate H.
  - intros ->. destruct T; reflexivity.
Qed.

(** C9: a command that declares no [Status] of its own (the fourteen
    structs other than [Connect], [StartMotionGenerator] and
    [GetCartesianLimit]) has the [Status] of [CommandBase], whose only
    enumerator is [kSuccess] with value 0; a response of such a command
    can carry no other status. *)
Theorem inherited_Status_only_kSuccess (T : Cmd.t) :
  declares_Status T = false ->
  In T [ Cmd.StopMotionGenerator; Cmd.StartController; Cmd.StopController;
         Cmd.SetControllerMode; Cmd.SetCollisionBehavior; Cmd.SetJointImpedance;
         Cmd.SetCartesianImpedance; Cmd.SetGuidingMode; Cmd.SetEEToK;
         Cmd.SetFToEE; Cmd.SetLoad; Cmd.SetTimeScalingFactor;
         Cmd.AutomaticErrorRecovery; Cmd.ResetExternalTorqueAndForceMax ] /\
  StatusOf T = CommandBase.Status /\
  Status_decl T = [Status_kSuccess T] /\
  forall s : StatusOf T,
    s = Status_kSuccess T /\
    Status_name T s = "kSuccess"%string /\
    Status_to_uint32 T s = 0.
Proof.
  intros H.
  destruct T; try discriminate H;
    (split; [simpl; tauto|]);
    (split; [reflexivity|]);
    (split; [reflexivity|]);
    intros s; destruct s; repeat split.
Qed.

Lemma inherited_Status_only_kSuccess_witness :
  declares_Status Cmd.StartController = false /\
  forall s : StatusOf Cmd.StartController, Status_to_uint32 Cmd.StartController s = 0.
Proof.
  split; [reflexivity|].
  intros s.
  apply (inherited_Status_only_kSuccess Cmd.StartController); reflexivity.
Defined.

(** ** Function identifiers of requests and responses *)

(** The [T] of the [RequestBase<T>] that [T::Request] derives from. *)
Lemma Request_constructed_function (T : Cmd.t) (x : Request) :
  Request_constructed T x ->
  Request_command x = T /\
  Request_function x =
    kFunction (if Cmd.t_beq T Cmd.SetTimeScalingFactor then Cmd.SetLoad else T).
Proof. intros H; destruct H; split; reflexivity. Qed.

Lemma Response_constructed_function (T : Cmd.t) (y : Response) :
  Response_constructed T y ->
  Response_command y = T /\ Response_function y = kFunction T.
Proof. intros H; destruct H; split; reflexivity. Qed.

(** C1, at the request of [SetTimeScalingFactor]: the constructor leaves
    [function] to [RequestBase<SetLoad>], so the request carries
    [Function::kSetLoad] and not [Function::kSetTimeScalingFactor], while
    the response of the same command carries
    [Function::kSetTimeScalingFactor]. *)
Theorem SetTimeScalingFactor_Request_carries_kSetLoad (time_scaling_factor : double) :
  let x := SetTimeScalingFactor_Request
             (SetTimeScalingFactor.make_Request time_scaling_factor) in
  Request_command x = Cmd.SetTimeScalingFactor /\
  Request_function x = kSetLoad /\
  Request_function x <> kFunction Cmd.SetTimeScalingFactor /\
  forall status : SetTimeScalingFactor.Status,
    let y := SetTimeScalingFactor_Response
               (SetTimeScalingFactor.make_Response status) in
    Response_function y = kSetTimeScalingFactor /\
    Response_function y <> Request_function x.
Proof.
  simpl. repeat split; try reflexivity; discriminate.
Qed.

(** ** The protocol version of a Connect exchange *)

(** C10: [kVersion] is 1; the constructor of [Connect::Request] stores it
    as [version] whatever the port, the constructor of
    [Connect::Response] stores it whatever the status, and so every
    constructed Connect request or response has version 1. *)
Theorem Connect_version_is_kVersion :
  kVersion = 1 /\
  (forall udp_port : Z, Connect.version (Connect.make_Request udp_port) = 1) /\
  (forall status : Connect.Status,
     Connect.Response_version (Connect.make_Response status) = 1) /\
  (forall (T : Cmd.t) (r : Connect.Request),
     Request_constructed T (Connect_Request r) -> Connect.version r = 1) /\
  (forall (T : Cmd.t) (r : Connect.Response),
     Response_constructed T (Connect_Response r) -> Connect.Response_version r = 1).
Proof.
  split; [reflexivity|].
  split; [reflexivity|].
  split; [reflexivity|].
  split.
  - intros T r H. inversion H; subst. reflexivity.
  - intros T r H. inversion H; subst. reflexivity.
Qed.

Lemma Connect_version_is_kVersion_witness :
  Request_constructed Cmd.Connect (Connect_Request (Connect.make_Request 1338)) /\
  Connect.version (Connect.make_Request 1338) = 1 /\
  Response_constructed Cmd.Connect
    (Connect_Response (Connect.make_Response Connect.kIncompatibleLibraryVersion)) /\
  Connect.Response_version (Connect.make_Response Connect.kIncompatibleLibraryVersion) = 1.
Proof.
  assert (Hq : Request_constructed Cmd.Connect
                 (Connect_Request (Connect.make_Request 1338)))
    by (apply new_Connect_Request; reflexivity).
  assert (Hp : Response_constructed Cmd.Connect
                 (Connect_Response
                    (Connect.make_Response Connect.kIncompatibleLibraryVersion)))
    by apply new_Connect_Response.
  destruct Connect_version_is_kVersion as (_ & _ & _ & Hreq & Hresp).
  split; [exact Hq|].
  split; [exact (Hreq _ _ Hq)|].
  split; [exact Hp|].
  exact (Hresp _ _ Hp).
Defined.

(** ** The vocabulary of safety violations *)

Lemma Error_beq_eq (a b : Errors.Error) : Errors.Error_beq a b = true <-> a = b.
Proof.
  split.
  - apply Errors.internal_Error_dec_bl.
  - apply Errors.internal_Error_dec_lb.
Qed.

Lemma Errors_decl_complete (e : Errors.Error) : In e Errors.decl.
Proof. destruct e; simpl; tauto. Qed.

Lemma Errors_decl_NoDup : NoDup Errors.decl.
Proof.
  apply (NoDup_map_inv Errors.to_size_t).
  change (map Errors.to_size_t Errors.decl) with (map Z.of_nat (seq 0 33)).
  apply Injective_map_NoDup.
  - intros a b H. now apply Nat2Z.inj.
  - apply seq_NoDup.
Qed.

(** C3 as stated fails: no list of 31 kinds covers the enumeration of
    [Errors], whose last enumerator has the value 32. *)
Lemma Errors_vocabulary_is_not_31 :
  ~ (exists kinds : list Errors.Error,
       List.length kinds = 31%nat /\ forall e : Errors.Error, In e kinds).
Proof.
  intros (kinds & Hlen & Hall).
  assert (Hle : (List.length Errors.decl <= List.length kinds)%nat).
  { apply NoDup_incl_length; [apply Errors_decl_NoDup|].
    intros e _. apply Hall. }
  rewrite Hlen in Hle. simpl in Hle. lia.
Qed.

(** C3, amended: the enumeration of [Errors] is a closed vocabulary of
    exactly 33 named violation kinds with the distinct values 0 to 32, and
    a classifier maps the raw fault flags into it, each kind once. *)
Theorem Errors_vocabulary_is_33 :
  List.length Errors.decl = 33%nat /\
  NoDup Errors.decl /\
  (forall e : Errors.Error, In e Errors.decl) /\
  (forall e : Errors.Error, 0 <= Errors.to_size_t e < 33) /\
  (forall e e' : Errors.Error, Errors.to_size_t e = Errors.to_size_t e' <-> e = e') /\
  forall (RawFlag : Type) (kind_of : RawFlag -> Errors.Error) (raw : list RawFlag),
    NoDup (classify RawFlag kind_of raw) /\
    (forall e : Errors.Error,
       In e (classify RawFlag kind_of raw) <-> exists f, In f raw /\ kind_of f = e) /\
    incl (classify RawFlag kind_of raw) Errors.decl /\
    (List.length (classify RawFlag kind_of raw) <= 33)%nat.
Proof.
  split; [reflexivity|].
  split; [exact Errors_decl_NoDup|].
  split; [exact Errors_decl_complete|].
  split.
  { intros e.
    pose proof (enumerator_value_lower Errors.Error_beq Errors.decl 0 e).
    pose proof (enumerator_value_upper Errors.Error_beq Error_beq_eq
                  Errors.decl 0 e (Errors_decl_complete e)).
    unfold Errors.to_size_t. simpl List.length in *. lia. }
  split.
  { intros e e'; split; [|now intros ->].
    apply (enumerator_value_inj Errors.Error_beq Error_beq_eq);
      apply Errors_decl_complete. }
  intros RawFlag kind_of raw. unfold classify.
  assert (Hnd : NoDup (nodup Errors.Error_eq_dec (map kind_of raw)))
    by apply NoDup_nodup.
  assert (Hincl : incl (nodup Errors.Error_eq_dec (map kind_of raw)) Errors.decl)
    by (intros e _; apply Errors_decl_complete).
  split; [exact Hnd|].
  split.
  { intros e. rewrite nodup_In, in_map_iff.
    split; intros (f & H1 & H2); exists f; tauto. }
  split; [exact Hincl|].
  change 33%nat with (List.length Errors.decl).
  now apply NoDup_incl_length.
Qed.

(** ** Payload sizes *)

(** C4 as stated fails at the Cartesian-limit result: its members take 177
    bytes, 184 with padding, and not 160. *)
Lemma GetCartesianLimit_payload_is_not_160 :
  payload_size (Response_members Cmd.GetCartesianLimit) <> 160 /\
  padded_payload_size (Response_members Cmd.GetCartesianLimit) <> 160 /\
  (3 + 3 + 16) * sizeof double_t = 176.
Proof. repeat split; discriminate. Qed.

(** C4, amended: with 8 bytes to a double and without the 4-byte
    FunctionId, the request members take 416 bytes for
    [SetCollisionBehavior] (arrays of 14, 14, 12 and 12 doubles), 56 for
    [SetJointImpedance], 48 for [SetCartesianImpedance], 128 for each of
    [SetEEToK] and [SetFToEE] and 104 for [SetLoad]; the result members of
    [GetCartesianLimit::Response] (3 + 3 + 16 doubles and one boolean)
    take 177 bytes, 184 when padded to the alignment of a double. *)
Theorem payload_sizes :
  sizeof double_t = 8 /\
  payload_size (Request_members Cmd.SetCollisionBehavior) = 416 /\
  payload_size (Request_members Cmd.SetCollisionBehavior) = (14 + 14 + 12 + 12) * 8 /\
  payload_size (Request_members Cmd.SetJointImpedance) = 56 /\
  payload_size (Request_members Cmd.SetCartesianImpedance) = 48 /\
  payload_size (Request_members Cmd.SetEEToK) = 128 /\
  payload_size (Request_members Cmd.SetFToEE) = 128 /\
  payload_size (Request_members Cmd.SetLoad) = 104 /\
  payload_size (Request_members Cmd.SetLoad) = (1 + 3 + 9) * 8 /\
  Forall (fun T => padded_payload_size (Request_members T)
                   = payload_size (Request_members T))
    [ Cmd.SetCollisionBehavior; Cmd.SetJointImpedance; Cmd.SetCartesianImpedance;
      Cmd.SetEEToK; Cmd.SetFToEE; Cmd.SetLoad ] /\
  payload_size (Response_members Cmd.GetCartesianLimit) = (3 + 3 + 16) * 8 + 1 /\
  payload_size (Response_members Cmd.GetCartesianLimit) = 177 /\
  padded_payload_size (Response_members Cmd.GetCartesianLimit) = 184.
Proof.
  repeat split; try reflexivity.
  repeat constructor.
Qed.

(** ** Version negotiation *)

Lemma negotiate_Accepted_iff (clientVersion serverVersion : Version) :
  negotiate clientVersion serverVersion = Accepted <-> clientVersion = serverVersion.
Proof.
  unfold negotiate.
  destruct (Z.eqb_spec clientVersion serverVersion); split; congruence.
Qed.

(** C6: negotiation accepts exactly when the two versions are equal; a
    Connect whose version differs from the server's is answered with
    [kIncompatibleLibraryVersion] (a status other than success) and no
    SessionState is created. *)
Theorem Connect_version_mismatch_is_rejected
    (serverVersion : Version) (request : Connect.Request) :
  Connect.version request <> serverVersion ->
  (forall c s : Version, negotiate c s = Accepted <-> c = s) /\
  negotiate (Connect.version request) serverVersion = Rejected_IncompatibleVersion /\
  Connect_step serverVersion request
    = (Connect.make_Response Connect.kIncompatibleLibraryVersion, None) /\
  Response_function (Connect_Response (fst (Connect_step serverVersion request)))
    = kConnect /\
  Response_status (Connect_Response (fst (Connect_step serverVersion request))) = 1 /\
  snd (Connect_step serverVersion request) = None.
Proof.
  intros Hne.
  assert (Hrej : negotiate (Connect.version request) serverVersion
                 = Rejected_IncompatibleVersion).
  { destruct (negotiate (Connect.version request) serverVersion) eqn:E; [|reflexivity].
    apply negotiate_Accepted_iff in E. contradiction. }
  split; [exact negotiate_Accepted_iff|].
  split; [exact Hrej|].
  unfold Connect_step. rewrite Hrej.
  repeat split.
Qed.

Lemma Connect_version_mismatch_is_rejected_witness :
  Connect.version (Connect.make_Request 1338) <> 2 /\
  Connect_step 2 (Connect.make_Request 1338)
    = (Connect.make_Response Connect.kIncompatibleLibraryVersion, None).
Proof.
  assert (Hne : Connect.version (Connect.make_Request 1338) <> 2) by discriminate.
  split; [exact Hne|].
  apply (Connect_version_mismatch_is_rejected 2 (Connect.make_Request 1338) Hne).
Defined.

(** Equal versions are accepted and create the session. *)
Lemma Connect_same_version_is_accepted (request : Connect.Request) :
  Connect_step (Connect.version request) request
    = (Connect.make_Response Connect.kSuccess, Some fresh_SessionState).
Proof.
  unfold Connect_step, negotiate. now rewrite Z.eqb_refl.
Qed.

(** ** Starting an axis that is not idle *)

Lemma start_axis_busy {M : Type} (mode active : M) (a : Axis M) :
  a = Starting active \/ a = Active active ->
  start_axis mode a = (Rejected, a).
Proof. intros [-> | ->]; reflexivity. Qed.

(** C5 as stated fails on the controller axis: with the controller Active
    in [kJointImpedance], starting it in [kMotorPD] is rejected by the
    state machine, and [StartController::Status], whose only enumerator
    is [kSuccess], has no [kRejected] to carry that. *)
Lemma StartController_has_no_kRejected :
  let s := {| controller_axis := Active SetControllerMode.kJointImpedance;
              motion_axis := Idle; faulted := false; latched := [] |} in
  fst (StartController_step SetControllerMode.kMotorPD s) = Rejected /\
  Outcome_status Cmd.StartController
    (fst (StartController_step SetControllerMode.kMotorPD s)) = None /\
  ~ (exists status : StartController.Status,
       Status_name Cmd.StartController status = "kRejected"%string).
Proof.
  simpl. repeat split.
  intros (status & H). destruct status. discriminate H.
Qed.

(** C5, amended: on the motion-generator axis, [StartMotionGenerator(mode)]
    issued while the axis is Starting or Active yields [kRejected], an
    enumerator of [StartMotionGenerator::Status] with value 4, and leaves
    the session, hence the active mode, unchanged.  On the controller
    axis a start issued while the axis is Starting or Active is rejected
    and leaves the session unchanged as well, but [StartController::Status]
    declares no [kRejected] in which a response could say so. *)
Theorem start_while_busy_is_rejected (s : SessionState) :
  (forall mode active : StartMotionGenerator.MotionGeneratorMode,
     motion_axis s = Starting active \/ motion_axis s = Active active ->
     StartMotionGenerator_step mode s = (Rejected, s) /\
     Axis_mode (motion_axis (snd (StartMotionGenerator_step mode s))) = Some active /\
     Outcome_status Cmd.StartMotionGenerator
       (fst (StartMotionGenerator_step mode s)) = Some StartMotionGenerator.kRejected /\
     Status_to_uint32 Cmd.StartMotionGenerator StartMotionGenerator.kRejected = 4) /\
  (forall mode active : SetControllerMode.ControllerMode,
     controller_axis s = Starting active \/ controller_axis s = Active active ->
     StartController_step mode s = (Rejected, s) /\
     Axis_mode (controller_axis (snd (StartController_step mode s))) = Some active /\
     Outcome_status Cmd.StartController (fst (StartController_step mode s)) = None).
Proof.
  destruct s as [ca ma f l]; simpl.
  split; intros mode active Hbusy.
  - unfold StartMotionGenerator_step; simpl.
    rewrite (start_axis_busy mode active ma Hbusy); simpl.
    repeat split. destruct Hbusy as [-> | ->]; reflexivity.
  - unfold StartController_step; simpl.
    rewrite (start_axis_busy mode active ca Hbusy); simpl.
    repeat split. destruct Hbusy as [-> | ->]; reflexivity.
Qed.

Lemma start_while_busy_is_rejected_witness :
  let s := {| controller_axis := Starting SetControllerMode.kJointPosition;
              motion_axis := Active StartMotionGenerator.kJointVelocity;
              faulted := false; latched := [] |} in
  StartMotionGenerator_step StartMotionGenerator.kCartesianPosition s = (Rejected, s) /\
  StartController_step SetControllerMode.kMotorPD s = (Rejected, s).
Proof.
  cbv zeta.
  split.
  - apply (proj1 (start_while_busy_is_rejected _)
             StartMotionGenerator.kCartesianPosition StartMotionGenerator.kJointVelocity).
    right; reflexivity.
  - apply (proj2 (start_while_busy_is_rejected _)
             SetControllerMode.kMotorPD SetControllerMode.kJointPosition).
    left; reflexivity.
Defined.

(** ** The wire codec *)

Lemma decodes_ret {A : Type} (a : A) : decodes (ret a) [] a.
Proof. intros rest. reflexivity. Qed.

Lemma decodes_bind {A B : Type} (d : decoder A) (k : A -> decoder B)
    (e1 e2 : list byte) (a : A) (b : B) :
  decodes d e1 a -> decodes (k a) e2 b -> decodes (bind d k) (e1 ++ e2) b.
Proof.
  intros H1 H2 rest. unfold bind.
  rewrite <- app_assoc, H1. apply H2.
Qed.

Lemma decodes_bind_ret {A B : Type} (d : decoder A) (f : A -> B)
    (e : list byte) (a : A) :
  decodes d e a -> decodes (bind d (fun x => ret (f x))) e (f a).
Proof.
  intros H. rewrite <- (app_nil_r e).
  eapply decodes_bind; [exact H|apply decodes_ret].
Qed.

Lemma decodes_of_option {A : Type} (d : decoder Z) (o : Z -> option A)
    (e : list byte) (v : Z) (a : A) :
  decodes d e v -> o v = Some a ->
  decodes (bind d (fun v => of_option (o v))) e a.
Proof.
  intros H Ho. rewrite <- (app_nil_r e).
  eapply decodes_bind; [exact H|]. rewrite Ho. apply decodes_ret.
Qed.

Lemma length_encode_uint (n : nat) (z : Z) : List.length (encode_uint n z) = n.
Proof. apply length_le_split. Qed.

Lemma decodes_uint (n : nat) (z : Z) :
  0 <= z < 2 ^ (Z.of_nat n * 8) -> decodes (decode_uint n) (encode_uint n z) z.
Proof.
  intros Hz rest. unfold decode_uint, encode_uint.
  assert (Hlen : List.length (le_split n z) = n) by apply length_le_split.
  destruct (Nat.ltb_spec (List.length (le_split n z ++ rest)) n) as [Hlt|_].
  - rewrite length_app in Hlt. lia.
  - rewrite firstn_app, skipn_app, Hlen, Nat.sub_diag.
    rewrite <- Hlen at 1. rewrite firstn_all.
    rewrite <- Hlen at 2. rewrite skipn_all.
    simpl. rewrite app_nil_r, le_combine_split, Z.mod_small by exact Hz.
    reflexivity.
Qed.

Lemma is_uint16_range (z : Z) : is_uint16 z = true -> 0 <= z < 2 ^ (Z.of_nat 2 * 8).
Proof. unfold is_uint16. change (2 ^ (Z.of_nat 2 * 8)) with (2 ^ 16). lia. Qed.

Lemma is_double_range (z : Z) : is_double z = true -> 0 <= z < 2 ^ (Z.of_nat 8 * 8).
Proof. unfold is_double. change (2 ^ (Z.of_nat 8 * 8)) with (2 ^ 64). lia. Qed.

Lemma decodes_double (d : double) :
  is_double d = true -> decodes decode_double (encode_double d) d.
Proof. intros H. apply decodes_uint. now apply is_double_range. Qed.

Lemma decodes_bool (b : bool) : decodes decode_bool (encode_bool b) b.
Proof.
  assert (H : decodes decode_bool (encode_bool b) (negb ((if b then 1 else 0) =? 0))).
  { apply decodes_bind_ret with (f := fun z => negb (z =? 0)).
    apply decodes_uint. destruct b; simpl; lia. }
  now destruct b.
Qed.

Lemma decodes_array {A : Type} (dec : decoder A) (enc : A -> list byte) (a : list A) :
  Forall (fun x => decodes dec (enc x) x) a ->
  decodes (decode_array dec (List.length a)) (encode_array enc a) a.
Proof.
  induction 1 as [|x xs Hx _ IH]; simpl.
  - apply decodes_ret.
  - eapply decodes_bind; [exact Hx|].
    now apply decodes_bind_ret with (f := cons x).
Qed.

Lemma is_array_length {T : Type} (elem : T -> bool) (N : nat) (a : list T) :
  is_array elem N a = true -> List.length a = N.
Proof.
  unfold is_array. intros H. apply andb_prop in H. now apply Nat.eqb_eq.
Qed.

Lemma decodes_array_double (N : nat) (a : list double) :
  is_array is_double N a = true ->
  decodes (decode_array decode_double N) (encode_array encode_double a) a.
Proof.
  intros H. rewrite <- (is_array_length _ _ _ H).
  apply decodes_array.
  apply andb_prop in H. destruct H as [_ H].
  rewrite forallb_forall in H. apply Forall_forall.
  intros x Hx. apply decodes_double. now apply H.
Qed.

Lemma decodes_array_bool (N : nat) (a : list bool) :
  is_array (fun _ => true) N a = true ->
  decodes (decode_array decode_bool N) (encode_array encode_bool a) a.
Proof.
  intros H. rewrite <- (is_array_length _ _ _ H).
  apply decodes_array. apply Forall_forall. intros x _. apply decodes_bool.
Qed.

Lemma uint32_of_small (v : Z) : 0 <= v < 33 -> 0 <= v < 2 ^ (Z.of_nat 4 * 8).
Proof. change (2 ^ (Z.of_nat 4 * 8)) with 4294967296. lia. Qed.

Lemma decodes_Function (f : Function) : decodes decode_Function (encode_Function f) f.
Proof.
  unfold decode_Function, encode_Function.
  apply decodes_of_option with (v := Function_to_uint32 f).
  - apply decodes_uint, uint32_of_small.
    pose proof (Function_to_uint32_range f). lia.
  - apply (enumerator_of_value_value Function_beq Function_beq_eq).
    apply Function_decl_complete.
Qed.

Lemma decodes_Status (T : Cmd.t) (s : StatusOf T) :
  decodes (decode_Status T) (encode_Status T s) s.
Proof.
  unfold decode_Status, encode_Status.
  apply decodes_of_option with (v := Status_to_uint32 T s).
  - apply decodes_uint, uint32_of_small.
    destruct T; destruct s; cbn; lia.
  - destruct T; destruct s; reflexivity.
Qed.

Lemma decodes_MotionGeneratorMode (m : StartMotionGenerator.MotionGeneratorMode) :
  decodes decode_MotionGeneratorMode (encode_MotionGeneratorMode m) m.
Proof.
  unfold decode_MotionGeneratorMode, encode_MotionGeneratorMode.
  apply decodes_of_option
    with (v := StartMotionGenerator.MotionGeneratorMode_to_uint32 m).
  - apply decodes_uint, uint32_of_small. destruct m; cbn; lia.
  - destruct m; reflexivity.
Qed.

Lemma decodes_ControllerMode (m : SetControllerMode.ControllerMode) :
  decodes decode_ControllerMode (encode_ControllerMode m) m.
Proof.
  unfold decode_ControllerMode, encode_ControllerMode.
  apply decodes_of_option with (v := SetControllerMode.ControllerMode_to_uint32 m).
  - apply decodes_uint, uint32_of_small. destruct m; cbn; lia.
  - destruct m; reflexivity.
Qed.

Lemma decodes_RequestBase (b : RequestBase.t) :
  decodes decode_RequestBase (encode_RequestBase b) b.
Proof.
  destruct b as [f]. unfold decode_RequestBase, encode_RequestBase.
  apply decodes_bind_ret with (f := RequestBase.Build). apply decodes_Function.
Qed.

Lemma decodes_ResponseBase (T : Cmd.t) (b : ResponseBase.t (StatusOf T)) :
  decodes (decode_ResponseBase T) (encode_ResponseBase T b) b.
Proof.
  destruct b as [f s]. unfold decode_ResponseBase, encode_ResponseBase.
  eapply decodes_bind; [apply decodes_Function|].
  apply decodes_bind_ret with (f := ResponseBase.Build f). apply decodes_Status.
Qed.

Lemma decodes_skip_bytes (n : nat) :
  decodes (skip_bytes n) (repeat Byte.x00 n) tt.
Proof.
  intros rest. unfold skip_bytes.
  destruct (Nat.ltb_spec (List.length (repeat Byte.x00 n ++ rest)) n) as [Hlt|_].
  - rewrite length_app, repeat_length in Hlt. lia.
  - rewrite skipn_app, repeat_length, Nat.sub_diag.
    rewrite <- (repeat_length Byte.x00 n) at 1. rewrite skipn_all. reflexivity.
Qed.

Lemma decodes_nil_end {A : Type} (d : decoder A) (e : list byte) (a : A) :
  decodes d (e ++ []) a -> decodes d e a.
Proof. now rewrite app_nil_r. Qed.

(** A frame of the fixed length that a decoder reads back decodes. *)
Lemma decode_frame_decodes {A : Type} (n : nat) (d : decoder A)
    (e : list byte) (a : A) :
  decodes d e a -> List.length e = n -> decode_frame n d e = Decoded a.
Proof.
  intros Hd Hlen. unfold decode_frame.
  rewrite Hlen, Nat.eqb_refl.
  specialize (Hd []). rewrite app_nil_r in Hd. now rewrite Hd.
Qed.

(** A frame of any other length is a framing error. *)
Lemma decode_frame_wrong_length {A : Type} (n : nat) (d : decoder A) (e : list byte) :
  List.length e <> n -> decode_frame n d e = FramingError.
Proof.
  intros Hlen. unfold decode_frame.
  now destruct (Nat.eqb_spec (List.length e) n).
Qed.

Lemma length_encode_array {A : Type} (enc : A -> list byte) (k : nat) (a : list A) :
  (forall x, List.length (enc x) = k) ->
  List.length (encode_array enc a) = (k * List.length a)%nat.
Proof.
  intros Hk. unfold encode_array.
  induction a as [|x xs IH]; simpl.
  - lia.
  - rewrite length_app, Hk, IH. lia.
Qed.

Lemma length_encode_array_double (N : nat) (a : list double) :
  is_array is_double N a = true ->
  List.length (encode_array encode_double a) = (8 * N)%nat.
Proof.
  intros H. rewrite (length_encode_array encode_double 8).
  - f_equal. exact (is_array_length _ _ _ H).
  - intros x. apply length_encode_uint.
Qed.

Lemma length_encode_array_bool (N : nat) (a : list bool) :
  is_array (fun _ => true) N a = true ->
  List.length (encode_array encode_bool a) = (1 * N)%nat.
Proof.
  intros H. rewrite (length_encode_array encode_bool 1).
  - f_equal. exact (is_array_length _ _ _ H).
  - intros x. apply length_encode_uint.
Qed.

Lemma length_encode_RequestBase (b : RequestBase.t) :
  List.length (encode_RequestBase b) = 4%nat.
Proof. apply length_encode_uint. Qed.

Lemma length_encode_ResponseBase (T : Cmd.t) (b : ResponseBase.t (StatusOf T)) :
  List.length (encode_ResponseBase T b) = 8%nat.
Proof.
  unfold encode_ResponseBase, encode_Function, encode_Status.
  now rewrite length_app, !length_encode_uint.
Qed.

Lemma length_encode_double (d : double) : List.length (encode_double d) = 8%nat.
Proof. apply length_encode_uint. Qed.

Lemma length_encode_bool (b : bool) : List.length (encode_bool b) = 1%nat.
Proof. apply length_encode_uint. Qed.

Lemma length_encode_MotionGeneratorMode (m : StartMotionGenerator.MotionGeneratorMode) :
  List.length (encode_MotionGeneratorMode m) = 4%nat.
Proof. apply length_encode_uint. Qed.

Lemma length_encode_ControllerMode (m : SetControllerMode.ControllerMode) :
  List.length (encode_ControllerMode m) = 4%nat.
Proof. apply length_encode_uint. Qed.

Create HintDb codec.

#[local] Hint Resolve decodes_RequestBase decodes_ResponseBase decodes_bool
  decodes_MotionGeneratorMode decodes_ControllerMode decodes_skip_bytes
  decodes_double decodes_array_double decodes_array_bool : codec.

#[local] Hint Extern 1 (decodes (decode_uint 2) _ _) =>
  apply decodes_uint, is_uint16_range; first [assumption | reflexivity] : codec.

(** Reads the members one after the other, then compares what was built. *)
Ltac decode_members :=
  apply decodes_nil_end; rewrite <- ?app_assoc;
  repeat (eapply decodes_bind; [solve [auto with codec] | cbv beta]);
  apply decodes_ret.

(** Adds up the lengths of the encoded members. *)
Ltac member_lengths :=
  cbn -[encode_uint encode_array encode_RequestBase encode_ResponseBase
        encode_bool encode_double encode_MotionGeneratorMode
        encode_ControllerMode Request_frame_length Response_frame_length repeat];
  rewrite ?length_app;
  repeat match goal with
         | Ha : is_array is_double _ _ = true |- _ =>
             rewrite (length_encode_array_double _ _ Ha); clear Ha
         | Ha : is_array (fun _ => true) _ _ = true |- _ =>
             rewrite (length_encode_array_bool _ _ Ha); clear Ha
         end;
  rewrite ?length_encode_RequestBase, ?length_encode_ResponseBase,
    ?length_encode_double, ?length_encode_bool,
    ?length_encode_MotionGeneratorMode, ?length_encode_ControllerMode,
    ?length_encode_uint, ?repeat_length.

Lemma decodes_Request_constructed (T : Cmd.t) (x : Request) :
  Request_constructed T x -> decodes (decode_Request_of T) (encode_Request x) x.
Proof.
  intros H; destruct H;
    cbv [decode_Request_of encode_Request]; cbv beta iota;
    decode_members.
Qed.

Lemma length_encode_Request (T : Cmd.t) (x : Request) :
  Request_constructed T x ->
  List.length (encode_Request x) = Request_frame_length (kFunction T).
Proof.
  intros H; destruct H; member_lengths; reflexivity.
Qed.

Section ResponseRoundTrip.
Variable activation_padding : nat.

Lemma decodes_Response_constructed (T : Cmd.t) (y : Response) :
  Response_constructed T y ->
  decodes (decode_Response_of activation_padding T)
    (encode_Response activation_padding y) y.
Proof.
  intros H; destruct H;
    cbv [decode_Response_of encode_Response]; cbv beta iota;
    decode_members.
Qed.

Lemma length_encode_Response (T : Cmd.t) (y : Response) :
  Response_constructed T y ->
  List.length (encode_Response activation_padding y)
  = Response_frame_length activation_padding (kFunction T).
Proof.
  intros H; destruct H; member_lengths; reflexivity.
Qed.
End ResponseRoundTrip.

(** C8: the codec round-trip law.  For each of the seventeen FunctionIds,
    decoding the encoding of a request built by the command's constructor
    gives the request back, and likewise for a response, whatever padding
    follows the trailing boolean of the Cartesian-limit result. *)
Theorem codec_round_trip (activation_padding : nat) :
  (forall (T : Cmd.t) (x : Request),
     Request_constructed T x ->
     decode_Request (kFunction T) (encode_Request x) = Decoded x) /\
  (forall (T : Cmd.t) (y : Response),
     Response_constructed T y ->
     decode_Response activation_padding (kFunction T)
       (encode_Response activation_padding y) = Decoded y).
Proof.
  split.
  - intros T x H. unfold decode_Request.
    rewrite command_of_Function_kFunction.
    apply decode_frame_decodes.
    + now apply decodes_Request_constructed.
    + now apply length_encode_Request.
  - intros T y H. unfold decode_Response.
    rewrite command_of_Function_kFunction.
    apply decode_frame_decodes.
    + now apply decodes_Response_constructed.
    + now apply length_encode_Response.
Qed.

Lemma codec_round_trip_witness :
  let x := SetTimeScalingFactor_Request
             (SetTimeScalingFactor.make_Request 4607182418800017408) in
  let y := GetCartesianLimit_Response
             (GetCartesianLimit.make_Response_with GetCartesianLimit.kReceived
                [1; 2; 3] [4; 5; 6] (repeat 4607182418800017408 16) true) in
  Request_constructed Cmd.SetTimeScalingFactor x /\
  decode_Request kSetTimeScalingFactor (encode_Request x) = Decoded x /\
  Response_constructed Cmd.GetCartesianLimit y /\
  decode_Response 7 kGetCartesianLimit (encode_Response 7 y) = Decoded y.
Proof.
  cbv zeta.
  assert (Hx : Request_constructed Cmd.SetTimeScalingFactor
                 (SetTimeScalingFactor_Request
                    (SetTimeScalingFactor.make_Request 4607182418800017408)))
    by (apply new_SetTimeScalingFactor_Request; reflexivity).
  assert (Hy : Response_constructed Cmd.GetCartesianLimit
                 (GetCartesianLimit_Response
                    (GetCartesianLimit.make_Response_with GetCartesianLimit.kReceived
                       [1; 2; 3] [4; 5; 6] (repeat 4607182418800017408 16) true)))
    by (apply new_GetCartesianLimit_Response_with; reflexivity).
  split; [exact Hx|].
  split; [exact (proj1 (codec_round_trip 7) _ _ Hx)|].
  split; [exact Hy|].
  exact (proj2 (codec_round_trip 7) _ _ Hy).
Defined.

(** The frames have the lengths of the members: 4 bytes of FunctionId and
    416 of thresholds for the collision behaviour, 8 bytes for a Connect
    request, 10 for a Connect response. *)
Example frame_lengths :
  Request_frame_length kSetCollisionBehavior = 420%nat /\
  Request_frame_length kConnect = 8%nat /\
  Response_frame_length 0 kConnect = 10%nat /\
  Response_frame_length 7 kGetCartesianLimit = 192%nat.
Proof. repeat split. Qed.

Example encode_Connect_Request :
  encode_Request (Connect_Request (Connect.make_Request 1338))
  = [Byte.x00; Byte.x00; Byte.x00; Byte.x00; Byte.x01; Byte.x00; Byte.x3a; Byte.x05].
Proof. vm_compute. reflexivity. Qed.

Example decode_short_frame :
  decode_Request kConnect [Byte.x00; Byte.x00; Byte.x00; Byte.x00] = FramingError.
Proof. reflexivity. Qed.

Example decode_unknown_Function :
  decode_Request kStopController [Byte.x11; Byte.x00; Byte.x00; Byte.x00]
  = FramingError.
Proof. vm_compute. reflexivity. Qed.

(* ================================================================== *)
(** * Further properties of the header *)

(** ** Which FunctionId a message carries *)

(** No constructed request carries [Function::kSetTimeScalingFactor], and
    the FunctionId of a request tells its command apart from every other
    one except within the pair [SetLoad] / [SetTimeScalingFactor], whose
    requests both carry [Function::kSetLoad]. *)
Theorem Request_function_collision (T T' : Cmd.t) (x x' : Request) :
  Request_constructed T x ->
  Request_constructed T' x' ->
  Request_function x <> kSetTimeScalingFactor /\
  (Request_function x = Request_function x' <->
   T = T' \/
   (T = Cmd.SetLoad /\ T' = Cmd.SetTimeScalingFactor) \/
   (T = Cmd.SetTimeScalingFactor /\ T' = Cmd.SetLoad)).
Proof.
  intros H H'.
  destruct (Request_constructed_function T x H) as [_ ->].
  destruct (Request_constructed_function T' x' H') as [_ ->].
  clear H H'.
  split.
  - destruct T; discriminate.
  - split.
    + destruct T; destruct T'; simpl; intros E;
        first [discriminate E | now left | right; left; now split
              | right; right; now split].
    + intros [-> | [[-> ->] | [-> ->]]]; reflexivity.
Qed.

Lemma Request_function_collision_witness :
  Request_function (SetLoad_Request (SetLoad.make_Request 0 (repeat 0 3) (repeat 0 9)))
  = Request_function
      (SetTimeScalingFactor_Request (SetTimeScalingFactor.make_Request 0)).
Proof.
  assert (H : Request_constructed Cmd.SetLoad
                (SetLoad_Request (SetLoad.make_Request 0 (repeat 0 3) (repeat 0 9))))
    by (apply new_SetLoad_Request; reflexivity).
  assert (H' : Request_constructed Cmd.SetTimeScalingFactor
                 (SetTimeScalingFactor_Request (SetTimeScalingFactor.make_Request 0)))
    by (apply new_SetTimeScalingFactor_Request; reflexivity).
  apply (proj2 (Request_function_collision _ _ _ _ H H')).
  right; left; split; reflexivity.
Defined.

(** A constructed response carries the FunctionId of its own command, so
    the FunctionId of a response determines the command; it equals the
    FunctionId of a request of the same command for every command but
    [SetTimeScalingFactor]. *)
Theorem Response_function_identifies_command
    (T T' : Cmd.t) (x : Request) (y y' : Response) :
  Request_constructed T x ->
  Response_constructed T y ->
  Response_constructed T' y' ->
  Response_function y = kFunction T /\
  (Response_function y = Response_function y' <-> T = T') /\
  (Response_function y = Request_function x <-> T <> Cmd.SetTimeScalingFactor).
Proof.
  intros Hx Hy Hy'.
  destruct (Request_constructed_function T x Hx) as [_ ->].
  destruct (Response_constructed_function T y Hy) as [_ ->].
  destruct (Response_constructed_function T' y' Hy') as [_ ->].
  clear Hx Hy Hy'.
  split; [reflexivity|].
  split.
  - split; [|now intros ->].
    intros E. apply (f_equal command_of_Function) in E.
    now rewrite !command_of_Function_kFunction in E.
  - destruct T; simpl; split; intros E; try reflexivity; try discriminate;
      try (intros E'; discriminate E'); now contradiction E.
Qed.

Lemma Response_function_identifies_command_witness :
  Response_function (StopController_Response
                       (StopController.make_Response CommandBase.kSuccess))
  = Request_function (StopController_Request StopController.make_Request).
Proof.
  assert (Hx : Request_constructed Cmd.StopController
                 (StopController_Request StopController.make_Request))
    by apply new_StopController_Request.
  assert (Hy : Response_constructed Cmd.StopController
                 (StopController_Response
                    (StopController.make_Response CommandBase.kSuccess)))
    by apply new_StopController_Response.
  apply (proj2 (proj2 (Response_function_identifies_command _ _ _ _ _ Hx Hy Hy))).
  discriminate.
Defined.

(** ** The values the enumerations take *)

Section EnumeratorPositions.
Context {A : Type} (eqb : A -> A -> bool).
Hypothesis eqb_eq : forall a b, eqb a b = true <-> a = b.

(** In a declaration without repeats, the enumerator at position [i] has
    the value of the first one plus [i]. *)
Lemma enumerator_value_nth (decl : list A) (next : Z) (i : nat) (d : A) :
  NoDup decl -> (i < List.length decl)%nat ->
  enumerator_value eqb next decl (nth i decl d) = next + Z.of_nat i.
Proof.
  intros Hnd. revert next i.
  induction Hnd as [|e rest Hnotin _ IH]; intros next i Hi; simpl in Hi.
  - lia.
  - destruct i as [|j]; simpl.
    + assert (E : eqb e e = true) by now apply eqb_eq.
      rewrite E. lia.
    + destruct (eqb e (nth j rest d)) eqn:E.
      * apply eqb_eq in E. exfalso. apply Hnotin. rewrite E.
        apply nth_In. lia.
      * rewrite IH by lia. lia.
Qed.

(** The values taken are exactly the [length decl] ones from [next] on. *)
Lemma enumerator_values_consecutive (decl : list A) (next v : Z) :
  NoDup decl ->
  (exists x, In x decl /\ enumerator_value eqb next decl x = v) <->
  next <= v < next + Z.of_nat (List.length decl).
Proof.
  intros Hnd. split.
  - intros (x & Hin & <-).
    pose proof (enumerator_value_lower eqb decl next x).
    pose proof (enumerator_value_upper eqb eqb_eq decl next x Hin). lia.
  - intros Hv. destruct decl as [|d rest]; [simpl in Hv; lia|].
    exists (nth (Z.to_nat (v - next)) (d :: rest) d). split.
    + apply nth_In. lia.
    + rewrite enumerator_value_nth by (trivial; lia). lia.
Qed.
End EnumeratorPositions.

Lemma status_eqb_eq (T : Cmd.t) (s s' : StatusOf T) :
  @status_eqb _ (StatusOf_enum T) s s' = true <-> s = s'.
Proof.
  destruct T; destruct s; destruct s'; split; intros H;
    try reflexivity; try discriminate H; cbv in H; discriminate H.
Qed.

Lemma Status_decl_NoDup (T : Cmd.t) : NoDup (Status_decl T).
Proof.
  destruct T; repeat (constructor; [simpl; intuition discriminate|]); constructor.
Qed.

(** The status values of a command are exactly 0, 1, ..., n - 1, where n
    is 2 for [Connect] and [GetCartesianLimit], 5 for
    [StartMotionGenerator] and 1 for the fourteen other commands, and
    different enumerators have different values. *)
Theorem Status_values_are_consecutive (T : Cmd.t) :
  List.length (Status_decl T)
  = (if declares_Status T
     then if Cmd.t_beq T Cmd.StartMotionGenerator then 5 else 2
     else 1)%nat /\
  (forall v : Z,
     (exists s : StatusOf T, Status_to_uint32 T s = v)
     <-> 0 <= v < Z.of_nat (List.length (Status_decl T))) /\
  (forall s s' : StatusOf T,
     Status_to_uint32 T s = Status_to_uint32 T s' <-> s = s').
Proof.
  split; [destruct T; reflexivity|].
  split.
  - intros v.
    rewrite <- (enumerator_values_consecutive _ (status_eqb_eq T) _ 0 v
                  (Status_decl_NoDup T)).
    split.
    + intros (s & Hs). exists s. split; [apply Status_decl_complete|exact Hs].
    + intros (s & _ & Hs). now exists s.
  - intros s s'. split; [|now intros ->].
    apply (enumerator_value_inj _ (status_eqb_eq T)); apply Status_decl_complete.
Qed.

(** A status name other than [kSuccess] is declared by one command only:
    [kIncompatibleLibraryVersion] by [Connect], [kReceived] by
    [GetCartesianLimit], and [kInvalidType], [kFinished], [kAborted] and
    [kRejected] by [StartMotionGenerator].  The value 1, in contrast, is
    taken in all three, under three different names. *)
Theorem failure_Status_names_have_one_owner :
  (forall (T T' : Cmd.t) (s : StatusOf T) (s' : StatusOf T'),
     Status_name T s = Status_name T' s' ->
     Status_name T s = "kSuccess"%string \/ T = T') /\
  (forall (T : Cmd.t) (s : StatusOf T),
     Status_name T s <> "kSuccess"%string -> declares_Status T = true) /\
  Status_to_uint32 Cmd.Connect Connect.kIncompatibleLibraryVersion = 1 /\
  Status_to_uint32 Cmd.StartMotionGenerator StartMotionGenerator.kInvalidType = 1 /\
  Status_to_uint32 Cmd.GetCartesianLimit GetCartesianLimit.kReceived = 1.
Proof.
  split.
  { intros T T' s s' E.
    destruct T; destruct s; try (left; reflexivity);
      destruct T'; destruct s'; try (right; reflexivity); discriminate E. }
  split.
  { intros T s Hne. destruct T; destruct s; try reflexivity;
      exfalso; apply Hne; reflexivity. }
  repeat split.
Qed.

Lemma failure_Status_names_have_one_owner_witness :
  Status_name Cmd.StartMotionGenerator StartMotionGenerator.kRejected
    = "kSuccess"%string \/
  Cmd.StartMotionGenerator = Cmd.StartMotionGenerator.
Proof.
  apply (proj1 failure_Status_names_have_one_owner
           Cmd.StartMotionGenerator Cmd.StartMotionGenerator
           StartMotionGenerator.kRejected StartMotionGenerator.kRejected).
  reflexivity.
Defined.

Lemma MotionGeneratorMode_eqb_eq (m m' : StartMotionGenerator.MotionGeneratorMode) :
  StartMotionGenerator.MotionGeneratorMode_eqb m m' = true <-> m = m'.
Proof. destruct m; destruct m'; simpl; split; congruence. Qed.

Lemma ControllerMode_eqb_eq (m m' : SetControllerMode.ControllerMode) :
  SetControllerMode.ControllerMode_eqb m m' = true <-> m = m'.
Proof. destruct m; destruct m'; simpl; split; congruence. Qed.

(** Both mode enumerations take exactly the values 0 to 3, one per
    enumerator.  The name [kJointPosition] stands for 0 as a
    [MotionGeneratorMode] and for 1 as a [ControllerMode]. *)
Theorem mode_values_are_consecutive :
  (forall v : Z,
     (exists m, StartMotionGenerator.MotionGeneratorMode_to_uint32 m = v)
     <-> 0 <= v < 4) /\
  (forall m m' : StartMotionGenerator.MotionGeneratorMode,
     StartMotionGenerator.MotionGeneratorMode_to_uint32 m
     = StartMotionGenerator.MotionGeneratorMode_to_uint32 m' <-> m = m') /\
  (forall v : Z,
     (exists m, SetControllerMode.ControllerMode_to_uint32 m = v) <-> 0 <= v < 4) /\
  (forall m m' : SetControllerMode.ControllerMode,
     SetControllerMode.ControllerMode_to_uint32 m
     = SetControllerMode.ControllerMode_to_uint32 m' <-> m = m') /\
  StartMotionGenerator.MotionGeneratorMode_to_uint32
    StartMotionGenerator.kJointPosition = 0 /\
  SetControllerMode.ControllerMode_to_uint32 SetControllerMode.kJointPosition = 1.
Proof.
  assert (Hm : forall m, In m StartMotionGenerator.MotionGeneratorMode_decl)
    by (intros m; destruct m; simpl; tauto).
  assert (Hc : forall m, In m SetControllerMode.ControllerMode_decl)
    by (intros m; destruct m; simpl; tauto).
  assert (Nm : NoDup StartMotionGenerator.MotionGeneratorMode_decl)
    by (repeat (constructor; [simpl; intuition discriminate|]); constructor).
  assert (Nc : NoDup SetControllerMode.ControllerMode_decl)
    by (repeat (constructor; [simpl; intuition discriminate|]); constructor).
  split.
  { intros v.
    change (0 <= v < 4) with
      (0 <= v < 0 + Z.of_nat (List.length StartMotionGenerator.MotionGeneratorMode_decl)).
    rewrite <- (enumerator_values_consecutive _ MotionGeneratorMode_eqb_eq _ 0 v Nm).
    split.
    - intros (m & E). exists m. split; [apply Hm|exact E].
    - intros (m & _ & E). now exists m. }
  split.
  { intros m m'. split; [|now intros ->].
    apply (enumerator_value_inj _ MotionGeneratorMode_eqb_eq); apply Hm. }
  split.
  { intros v.
    change (0 <= v < 4) with
      (0 <= v < 0 + Z.of_nat (List.length SetControllerMode.ControllerMode_decl)).
    rewrite <- (enumerator_values_consecutive _ ControllerMode_eqb_eq _ 0 v Nc).
    split.
    - intros (m & E). exists m. split; [apply Hc|exact E].
    - intros (m & _ & E). now exists m. }
  split.
  { intros m m'. split; [|now intros ->].
    apply (enumerator_value_inj _ ControllerMode_eqb_eq); apply Hc. }
  split; reflexivity.
Qed.

(** ** Responses of the commands without a status of their own *)



(** ** Payload sizes of all commands *)


(** ** Indices of the violation kinds *)

(** Every index from 0 to 32 is the value of exactly one enumerator of
    [Errors], and no other number is: a table of 33 flags indexed by
    [Errors] has a name for each slot and no name without a slot. *)
Theorem Errors_indices_are_consecutive (v : Z) :
  ((exists e : Errors.Error, Errors.to_size_t e = v) <-> 0 <= v < 33) /\
  (forall e e' : Errors.Error,
     Errors.to_size_t e = v -> Errors.to_size_t e' = v -> e = e').
Proof.
  split.
  - change (0 <= v < 33) with (0 <= v < 0 + Z.of_nat (List.length Errors.decl)).
    rewrite <- (enumerator_values_consecutive _ Error_beq_eq _ 0 v Errors_decl_NoDup).
    split.
    + intros (e & E). exists e. split; [apply Errors_decl_complete|exact E].
    + intros (e & _ & E). now exists e.
  - intros e e' E E'.
    apply (enumerator_value_inj _ Error_beq_eq Errors.decl 0);
      try apply Errors_decl_complete.
    unfold Errors.to_size_t in *. congruence.
Qed.
